(** * NSGiftsClient: the request executor, the token manager and the
      server-error cooldown of [nsgifts/client.py]

    The client object, the clock, the network and the sleeps are made
    explicit: a method of the class becomes a function from the client
    record and the world to a result, the client record after the call and
    the world after the call.  A raised exception is a result too, and keeps
    every mutation made before the [raise], as it does in Python. *)

From stdpp Require Import gmap strings list pretty.

Set Warnings "-register-all".
Open Scope Z_scope.

(** ** Python values

    What [response.json()] can return and what the attributes [token] and
    [token_expiry] can therefore hold.  Numbers with a fractional part are
    left out. *)

Inductive Value :=
  | VNone
  | VBool (b : bool)
  | VInt (z : Z)
  | VStr (s : string)
  | VList (l : list Value)
  | VDict (d : gmap string Value).

(** Truth value of an object in a condition ([if self.token:]). *)
Definition truthy (v : Value) : bool :=
  match v with
  | VNone => false
  | VBool b => b
  | VInt z => negb (z =? 0)
  | VStr s => negb (bool_decide (s = ""))
  | VList l => match l with [] => false | _ :: _ => true end
  | VDict d => negb (Nat.eqb (size d) 0)
  end.

(** Truth value of an [Optional[str]] attribute ([email], [password]). *)
Definition truthy_str (o : option string) : bool :=
  match o with
  | None => false
  | Some s => negb (bool_decide (s = ""))
  end.

(** An [Optional[str]] attribute as the value it is. *)
Definition str_value (o : option string) : Value :=
  match o with
  | None => VNone
  | Some s => VStr s
  end.

(** ** Exceptions *)

(** The exceptions [session.request] raises, as the [except] clauses of
    [_request_with_retries] name them: [ClientTimeout] is the exception
    class the second clause takes it for. *)
Inductive TransportError :=
  | ClientResponseError (status : Z) (message : string)
  | ClientConnectionError
  | ClientTimeout.

(** The classes imported from [.errors]. *)
Inductive APIErrorClass :=
  | APIError
  | APIConnectionError
  | APITimeoutError
  | APIAuthenticationError
  | APIServerError
  | APIClientError.

(** An exception in flight: one of the client's own, with its message and
    the [__cause__] set by [raise ... from ...], or one of the two the
    interpreter raises on a value of the wrong type. *)
Inductive Exn :=
  | APIExn (cls : APIErrorClass) (msg : string) (cause : option TransportError)
  | TypeError
  | AttributeError.

(** Modelled from the spec: [errors.py] is not among the sources, so the
    class hierarchy that [except APIAuthenticationError] tests against is
    missing.  The spec's error taxonomy lists the kinds as separate ones, so
    an exception matches the clause exactly when its class is
    [APIAuthenticationError]. *)
Definition is_APIAuthenticationError (e : Exn) : bool :=
  match e with
  | APIExn APIAuthenticationError _ _ => true
  | _ => false
  end.

Inductive Result (A : Type) :=
  | Ok (a : A)
  | Raise (e : Exn).
Arguments Ok {A} a.
Arguments Raise {A} e.

(** ** The client object *)

(** [aiohttp.ClientSession], as far as the client looks at it. *)
Record Session := mkSession {
  raise_for_status : bool;
  closed : bool
}.

Record Client := mkClient {
  base_url : string;
  _max_retries : Z;
  _request_timeout : Z;
  _server_error_cooldown : Z;
  _token_refresh_buffer : Z;
  token : Value;
  token_expiry : Value;
  email : option string;
  password : option string;
  session : option Session;
  _server_error_detected : bool;
  _server_error_timestamp : Z
}.

(** [NSGiftsClient.__init__]. *)
Definition init (base_url : string)
    (max_retries request_timeout server_error_cooldown token_refresh_buffer : Z)
    : Client :=
  {| base_url := base_url;
     _max_retries := max_retries;
     _request_timeout := request_timeout;
     _server_error_cooldown := server_error_cooldown;
     _token_refresh_buffer := token_refresh_buffer;
     token := VNone;
     token_expiry := VInt 0;
     email := None;
     password := None;
     session := None;
     _server_error_detected := false;
     _server_error_timestamp := 0 |}.

Definition set_token (v : Value) (c : Client) : Client :=
  {| base_url := base_url c; _max_retries := _max_retries c;
     _request_timeout := _request_timeout c;
     _server_error_cooldown := _server_error_cooldown c;
     _token_refresh_buffer := _token_refresh_buffer c;
     token := v; token_expiry := token_expiry c;
     email := email c; password := password c; session := session c;
     _server_error_detected := _server_error_detected c;
     _server_error_timestamp := _server_error_timestamp c |}.

Definition set_token_expiry (v : Value) (c : Client) : Client :=
  {| base_url := base_url c; _max_retries := _max_retries c;
     _request_timeout := _request_timeout c;
     _server_error_cooldown := _server_error_cooldown c;
     _token_refresh_buffer := _token_refresh_buffer c;
     token := token c; token_expiry := v;
     email := email c; password := password c; session := session c;
     _server_error_detected := _server_error_detected c;
     _server_error_timestamp := _server_error_timestamp c |}.

Definition set_email (v : option string) (c : Client) : Client :=
  {| base_url := base_url c; _max_retries := _max_retries c;
     _request_timeout := _request_timeout c;
     _server_error_cooldown := _server_error_cooldown c;
     _token_refresh_buffer := _token_refresh_buffer c;
     token := token c; token_expiry := token_expiry c;
     email := v; password := password c; session := session c;
     _server_error_detected := _server_error_detected c;
     _server_error_timestamp := _server_error_timestamp c |}.

Definition set_password (v : option string) (c : Client) : Client :=
  {| base_url := base_url c; _max_retries := _max_retries c;
     _request_timeout := _request_timeout c;
     _server_error_cooldown := _server_error_cooldown c;
     _token_refresh_buffer := _token_refresh_buffer c;
     token := token c; token_expiry := token_expiry c;
     email := email c; password := v; session := session c;
     _server_error_detected := _server_error_detected c;
     _server_error_timestamp := _server_error_timestamp c |}.

Definition set_session (v : option Session) (c : Client) : Client :=
  {| base_url := base_url c; _max_retries := _max_retries c;
     _request_timeout := _request_timeout c;
     _server_error_cooldown := _server_error_cooldown c;
     _token_refresh_buffer := _token_refresh_buffer c;
     token := token c; token_expiry := token_expiry c;
     email := email c; password := password c; session := v;
     _server_error_detected := _server_error_detected c;
     _server_error_timestamp := _server_error_timestamp c |}.

Definition set_server_error_detected (v : bool) (c : Client) : Client :=
  {| base_url := base_url c; _max_retries := _max_retries c;
     _request_timeout := _request_timeout c;
     _server_error_cooldown := _server_error_cooldown c;
     _token_refresh_buffer := _token_refresh_buffer c;
     token := token c; token_expiry := token_expiry c;
     email := email c; password := password c; session := session c;
     _server_error_detected := v;
     _server_error_timestamp := _server_error_timestamp c |}.

Definition set_server_error_timestamp (v : Z) (c : Client) : Client :=
  {| base_url := base_url c; _max_retries := _max_retries c;
     _request_timeout := _request_timeout c;
     _server_error_cooldown := _server_error_cooldown c;
     _token_refresh_buffer := _token_refresh_buffer c;
     token := token c; token_expiry := token_expiry c;
     email := email c; password := password c; session := session c;
     _server_error_detected := _server_error_detected c;
     _server_error_timestamp := v |}.

(** ** The world outside the client *)

(** A header value: a literal, or the f-string [f"Bearer {self.token}"],
    kept with the object that is formatted into it. *)
Inductive HeaderValue :=
  | HLit (s : string)
  | HBearer (tok : Value).

(** The arguments of one [self.session.request(...)]. *)
Record Request := mkRequest {
  req_method : string;
  req_url : string;
  req_json : option (gmap string Value);
  req_headers : gmap string HeaderValue;
  req_timeout : Z
}.

(** What one [session.request] does: the body parsed by [response.json()],
    or an exception. *)
Inductive Outcome :=
  | Response (result : Value)
  | Failure (e : TransportError).

(** What the client does to the outside, in the order it does it. *)
Inductive Event :=
  | EvRequest (r : Request)
  | EvSleep (seconds : Z).

(** The clock and the network are oracles: the n-th evaluation of
    [int(time.time())] is [clock n] and the n-th request meets
    [network n], so that no assumption is made on either. *)
Record World := mkWorld {
  clock : nat -> Z;
  ticks : nat;
  network : nat -> Outcome;
  sent : nat;
  trace : list Event
}.

(** ** Methods as state transformers *)

Definition M (A : Type) : Type := Client -> World -> Result A * Client * World.

Definition ret {A} (a : A) : M A := fun c w => (Ok a, c, w).

Definition raise {A} (e : Exn) : M A := fun c w => (Raise e, c, w).

Definition bind {A B} (m : M A) (k : A -> M B) : M B :=
  fun c w =>
    match m c w with
    | (Ok a, c', w') => k a c' w'
    | (Raise e, c', w') => (Raise e, c', w')
    end.

Notation "x <- m ;; k" := (bind m (fun x => k))
  (at level 100, m at next level, right associativity).
Notation "m ;;; k" := (bind m (fun _ => k))
  (at level 100, right associativity).

(** [try: m] with the outcome handed to the handler. *)
Definition try {A} (m : M A) : M (Result A) :=
  fun c w => let '(r, c', w') := m c w in (Ok r, c', w').

Definition self : M Client := fun c w => (Ok c, c, w).

Definition assign (f : Client -> Client) : M unit :=
  fun c w => (Ok tt, f c, w).

(** The world after one reading of the clock, after a sleep, and after a
    request has been sent. *)
Definition tick (w : World) : World :=
  {| clock := clock w; ticks := S (ticks w); network := network w;
     sent := sent w; trace := trace w |}.

Definition slept (seconds : Z) (w : World) : World :=
  {| clock := clock w; ticks := ticks w; network := network w;
     sent := sent w; trace := trace w ++ [EvSleep seconds] |}.

Definition sent_request (r : Request) (w : World) : World :=
  {| clock := clock w; ticks := ticks w; network := network w;
     sent := S (sent w); trace := trace w ++ [EvRequest r] |}.

(** [int(time.time())]. *)
Definition time_time : M Z :=
  fun c w => (Ok (clock w (ticks w)), c, tick w).

(** [await asyncio.sleep(seconds)]. *)
Definition asyncio_sleep (seconds : Z) : M unit :=
  fun c w => (Ok tt, c, slept seconds w).

(** [async with self.session.request(...) as response: await response.json()]. *)
Definition session_request (r : Request) : M Outcome :=
  fun c w => (Ok (network w (sent w)), c, sent_request r w).

(** ** The endpoint catalogue

    [api_endpoints.py] is not among the sources; the two entries the client
    logic compares against are taken as a parameter. *)
Record Endpoints := mkEndpoints {
  ep_login : string;
  ep_signup : string
}.

(** ** The methods of [NSGiftsClient]

    Calls to [logger] are left out: they touch neither the client nor the
    network. *)

(** [_get_headers]. *)
Definition _get_headers (c : Client) : gmap string HeaderValue :=
  let headers := {[ "Content-Type" := HLit "application/json" ]} in
  if truthy (token c)
  then <[ "Authorization" := HBearer (token c) ]> headers
  else headers.

(** The arguments [_request_with_retries] passes to [session.request]. *)
Definition request_args (c : Client) (method url : string)
    (json_data : option (gmap string Value)) : Request :=
  {| req_method := method;
     req_url := url;
     req_json := json_data;
     req_headers := _get_headers c;
     req_timeout := _request_timeout c |}.

(** [_ensure_session]: with one caller the session lock is free and the test
    under the lock repeats the one before it. *)
Definition _ensure_session : M unit :=
  c <- self ;;
  match session c with
  | Some s =>
      if closed s
      then assign (set_session (Some (mkSession true false)))
      else ret tt
  | None => assign (set_session (Some (mkSession true false)))
  end.

(** [_is_cooldown_expired]. *)
Definition _is_cooldown_expired : M bool :=
  current_time <- time_time ;;
  c <- self ;;
  ret (_server_error_timestamp c + _server_error_cooldown c <=? current_time).

(** [is_server_error_detected]. *)
Definition is_server_error_detected : M bool :=
  c <- self ;;
  (if _server_error_detected c
   then
     expired <- _is_cooldown_expired ;;
     if expired then assign (set_server_error_detected false) else ret tt
   else ret tt) ;;;
  c <- self ;;
  ret (_server_error_detected c).

(** [reset_server_error_state]. *)
Definition reset_server_error_state : M unit :=
  assign (set_server_error_detected false) ;;;
  assign (set_server_error_timestamp 0).

(** The condition of the first [if] of the retry loop, with the short
    circuit of [and]: the clock is read only when the flag is set, and
    [is_auth_request] is looked at last. *)
Definition cooldown_blocks (is_auth_request : bool) : M bool :=
  c <- self ;;
  if _server_error_detected c
  then
    expired <- _is_cooldown_expired ;;
    ret (negb expired && negb is_auth_request)
  else ret false.

(** The condition [not self.token or
    (self.token_expiry - current_time < self._token_refresh_buffer)].  The
    subtraction is defined on integers (and on booleans, which are
    integers); on anything else it raises [TypeError]. *)
Definition token_needs_refresh (current_time : Z) : M bool :=
  c <- self ;;
  if negb (truthy (token c)) then ret true
  else
    match token_expiry c with
    | VInt z => ret (z - current_time <? _token_refresh_buffer c)
    | VBool b => ret (Z.b2z b - current_time <? _token_refresh_buffer c)
    | _ => raise TypeError
    end.

(** [current_time = int(time.time())] followed by that condition: the test
    [_ensure_valid_token] makes before taking the lock and again under it. *)
Definition token_check : M bool :=
  current_time <- time_time ;;
  token_needs_refresh current_time.

(** The body of [async with self._token_lock:] in [_ensure_valid_token],
    in the two parts its [await] divides it into.  The first part is the
    test and the look at the credentials; it tells whether the request is
    to be made. *)
Definition refresh_needed : M bool :=
  stale <- token_check ;;
  if stale then
    c <- self ;;
    if negb (truthy_str (email c)) || negb (truthy_str (password c)) then
      raise (APIExn APIAuthenticationError
               "Token expired, but credentials are not set for refresh. Call login() first."
               None)
    else ret true
  else ret false.

Section Methods.

Variable API_ENDPOINTS : Endpoints.

Section Executor.

(** [self._ensure_valid_token], as the 401 branch calls it.  The two
    methods call each other; the knot is tied below. *)
Variable ensure_valid_token : M unit.

(** The [for attempt in range(self._max_retries)] loop of
    [_request_with_retries] with the [raise APIError] that follows it:
    [remaining] counts the iterations still to run and [attempt] is the
    loop variable. *)
Fixpoint retry_loop (remaining : nat) (attempt : Z)
    (last_error : option TransportError)
    (method endpoint : string) (json_data : option (gmap string Value))
    (is_auth_request : bool) {struct remaining} : M Value :=
  match remaining with
  | O => raise (APIExn APIError "Request failed after all retries." last_error)
  | S rest =>
      blocked <- cooldown_blocks is_auth_request ;;
      if blocked then
        now <- time_time ;;
        c <- self ;;
        let cooldown_remaining :=
          _server_error_timestamp c + _server_error_cooldown c - now in
        raise (APIExn APIServerError
                 ("API server error detected. Avoiding requests for "
                  +:+ pretty cooldown_remaining +:+ " more seconds.")
                 None)
      else
        c <- self ;;
        let url := base_url c +:+ endpoint in
        outcome <- session_request (request_args c method url json_data) ;;
        match outcome with
        | Response result =>
            if bool_decide (endpoint = ep_login API_ENDPOINTS)
               || bool_decide (endpoint = ep_signup API_ENDPOINTS)
            then
              match result with
              | VDict d =>
                  assign (set_token (default VNone (d !! "access_token"))) ;;;
                  now <- time_time ;;
                  assign (set_token_expiry
                            (default (VInt (now + 5400)) (d !! "valid_thru"))) ;;;
                  ret result
              | _ => raise AttributeError
              end
            else ret result
        | Failure (ClientResponseError status message as e) =>
            if (400 <=? status) && (status <? 500) then
              if (status =? 401) && negb is_auth_request then
                refreshed <- try ensure_valid_token ;;
                match refreshed with
                | Ok _ =>
                    retry_loop rest (attempt + 1) (Some e)
                      method endpoint json_data is_auth_request
                | Raise ex =>
                    if is_APIAuthenticationError ex
                    then raise (APIExn APIAuthenticationError
                                  "Authentication failed after token refresh."
                                  (Some e))
                    else raise ex
                end
              else
                raise (APIExn APIClientError
                         ("Client error at " +:+ url +:+ ": "
                          +:+ pretty status +:+ " " +:+ message)
                         (Some e))
            else
              assign (set_server_error_detected true) ;;;
              now <- time_time ;;
              assign (set_server_error_timestamp now) ;;;
              raise (APIExn APIServerError
                       ("Server error at " +:+ url +:+ ": "
                        +:+ pretty status +:+ " " +:+ message)
                       (Some e))
        | Failure e =>
            let error_type :=
              match e with
              | ClientConnectionError => "Connection error"
              | _ => "Request timeout"
              end in
            c <- self ;;
            if attempt <? _max_retries c - 1 then
              let wait_time := 1 * 2 ^ attempt in
              asyncio_sleep wait_time ;;;
              retry_loop rest (attempt + 1) (Some e)
                method endpoint json_data is_auth_request
            else
              let ErrorClass :=
                match e with
                | ClientConnectionError => APIConnectionError
                | _ => APITimeoutError
                end in
              raise (APIExn ErrorClass
                       (error_type +:+ " after "
                        +:+ pretty (_max_retries c) +:+ " attempts.")
                       (Some e))
        end
  end.

(** [_request_with_retries], with the call at line 242 left open. *)
Definition request_with_retries_via
    (method endpoint : string) (json_data : option (gmap string Value))
    (is_auth_request : bool) : M Value :=
  _ensure_session ;;;
  c <- self ;;
  retry_loop (Z.to_nat (_max_retries c)) 0 None
    method endpoint json_data is_auth_request.

End Executor.

(** The second part of that body is the awaited login request.  It is
    made with [is_auth_request=True], so the 401 branch of the loop, the
    only place that calls back, is never reached from here and the
    callback it is given is irrelevant: this is [_request_with_retries]
    itself ([refresh_request_calls_executor] below). *)
Definition refresh_request : M unit :=
  c <- self ;;
  request_with_retries_via (ret tt) "POST" (ep_login API_ENDPOINTS)
    (Some {[ "email" := str_value (email c);
             "password" := str_value (password c) ]})
    true ;;;
  ret tt.

Definition ensure_valid_token_locked : M unit :=
  go <- refresh_needed ;;
  if go then refresh_request else ret tt.

(** [_ensure_valid_token] with one caller: the token lock is free, so
    [async with] enters at once. *)
Definition _ensure_valid_token : M unit :=
  stale <- token_check ;;
  if stale then ensure_valid_token_locked else ret tt.

(** [_request_with_retries]. *)
Definition _request_with_retries
    (method endpoint : string) (json_data : option (gmap string Value))
    (is_auth_request : bool) : M Value :=
  request_with_retries_via _ensure_valid_token
    method endpoint json_data is_auth_request.

(** [login]. *)
Definition login (email password : string) : M Value :=
  assign (set_email (Some email)) ;;;
  assign (set_password (Some password)) ;;;
  let data : gmap string Value :=
    {[ "email" := VStr email; "password" := VStr password ]} in
  _request_with_retries "POST" (ep_login API_ENDPOINTS) (Some data) true.

(** [signup]. *)
Definition signup (email role bybit_deposit : string) : M Value :=
  assign (set_email (Some email)) ;;;
  let data : gmap string Value :=
    {[ "email" := VStr email; "role" := VStr role;
       "bybit_deposit" := VStr bybit_deposit ]} in
  _request_with_retries "POST" (ep_signup API_ENDPOINTS) (Some data) true.

(** [_make_authenticated_request]. *)
Definition _make_authenticated_request
    (method endpoint : string) (json_data : option (gmap string Value))
    : M Value :=
  c <- self ;;
  if negb (truthy (token c))
     && negb (truthy_str (email c) && truthy_str (password c))
  then raise (APIExn APIAuthenticationError
                "Authentication required. Call login() or signup() first."
                None)
  else
    _ensure_valid_token ;;;
    _request_with_retries method endpoint json_data false.

(** *** Several callers of [_ensure_valid_token] at once

    The callers are coroutines on one event loop, so each runs alone
    between two suspension points.  A caller can be suspended where it
    waits for [self._token_lock] and, while it owns the lock, in the
    awaited login request.  Taking a free lock does not suspend, so the
    acquisition and [refresh_needed] are one step.  While the owner is
    suspended in its request the other callers can only make their first
    test or wait for the lock, and both only read [token] and
    [token_expiry], which the request writes in one stretch without
    suspension, right after the response; [refresh_request] is therefore
    one step as well, taken when the request completes.  [asyncio.Lock]
    wakes its waiters in arrival order; here any waiter may get a free
    lock, which allows every order. *)

Inductive Caller :=
  | Entering
  | Waiting
  | Refreshing
  | Returned (r : Result unit).

Record System := mkSystem {
  sys_client : Client;
  sys_world : World;
  _token_lock : bool;
  callers : list Caller
}.

(** One step of caller [i], if it can take one: the first test; the
    acquisition of a free lock with the part of the body before the
    request, which releases the lock at once when no request is to be
    made; the request, with the release that follows it. *)
Definition step_caller (i : nat) (s : System) : option System :=
  match callers s !! i with
  | Some Entering =>
      let '(r, c', w') := token_check (sys_client s) (sys_world s) in
      let next :=
        match r with
        | Ok true => Waiting
        | Ok false => Returned (Ok tt)
        | Raise ex => Returned (Raise ex)
        end in
      Some {| sys_client := c'; sys_world := w';
              _token_lock := _token_lock s;
              callers := <[ i := next ]> (callers s) |}
  | Some Waiting =>
      if _token_lock s then None
      else
        let '(r, c', w') := refresh_needed (sys_client s) (sys_world s) in
        match r with
        | Ok true =>
            Some {| sys_client := c'; sys_world := w';
                    _token_lock := true;
                    callers := <[ i := Refreshing ]> (callers s) |}
        | Ok false =>
            Some {| sys_client := c'; sys_world := w';
                    _token_lock := false;
                    callers := <[ i := Returned (Ok tt) ]> (callers s) |}
        | Raise ex =>
            Some {| sys_client := c'; sys_world := w';
                    _token_lock := false;
                    callers := <[ i := Returned (Raise ex) ]> (callers s) |}
        end
  | Some Refreshing =>
      let '(r, c', w') := refresh_request (sys_client s) (sys_world s) in
      Some {| sys_client := c'; sys_world := w';
              _token_lock := false;
              callers := <[ i := Returned r ]> (callers s) |}
  | Some (Returned _) => None
  | None => None
  end.

(** The system after the event loop has resumed the callers in the order
    [schedule]; a caller that cannot run when it is picked is skipped. *)
Fixpoint run_schedule (schedule : list nat) (s : System) : System :=
  match schedule with
  | [] => s
  | i :: later =>
      match step_caller i s with
      | Some s' => run_schedule later s'
      | None => run_schedule later s
      end
  end.

(** [n] callers that have not started yet, on a client whose lock is
    free. *)
Definition concurrent_callers (n : nat) (c : Client) (w : World) : System :=
  {| sys_client := c; sys_world := w; _token_lock := false;
     callers := replicate n Entering |}.

End Methods.

(** ** Reading a run *)

Definition result_of {A} (r : Result A * Client * World) : Result A := r.1.1.
Definition client_after {A} (r : Result A * Client * World) : Client := r.1.2.
Definition world_after {A} (r : Result A * Client * World) : World := r.2.

(** The class of a raised exception, when it is one of the client's own. *)
Definition class_of (e : Exn) : option APIErrorClass :=
  match e with
  | APIExn cls _ _ => Some cls
  | _ => None
  end.

(** The events a run added to the trace. *)
Definition events_since (w w' : World) : list Event :=
  drop (length (trace w)) (trace w').

(** The requests among some events, and those sent to one URL. *)
Definition requests_of (evs : list Event) : list Request :=
  omap (fun ev => match ev with EvRequest r => Some r | EvSleep _ => None end) evs.




(** Whether a request is one whose answer installs a token: a request to the
    login or the signup URL that got a response. *)
Definition grants_token (login_url signup_url : string)
    (r : Request) (o : Outcome) : bool :=
  (bool_decide (req_url r = login_url) || bool_decide (req_url r = signup_url))
  && match o with Response _ => true | Failure _ => false end.

(** Whether, among events whose first request is the [k]-th of the world,
    every request up to and including the first that installs a token goes
    without an [Authorization] header. *)
Fixpoint sent_without_token (login_url signup_url : string)
    (net : nat -> Outcome) (k : nat) (evs : list Event) : bool :=
  match evs with
  | [] => true
  | EvSleep _ :: evs' => sent_without_token login_url signup_url net k evs'
  | EvRequest r :: evs' =>
      match req_headers r !! "Authorization" with
      | Some _ => false
      | None =>
          grants_token login_url signup_url r (net k)
          || sent_without_token login_url signup_url net (S k) evs'
      end
  end.

(** Whether one of these requests installs a token. *)
Fixpoint token_granted (login_url signup_url : string)
    (net : nat -> Outcome) (k : nat) (evs : list Event) : bool :=
  match evs with
  | [] => false
  | EvSleep _ :: evs' => token_granted login_url signup_url net k evs'
  | EvRequest r :: evs' =>
      grants_token login_url signup_url r (net k)
      || token_granted login_url signup_url net (S k) evs'
  end.

(** ** What a call leaves alone *)

(** The attributes no method below [login] and [signup] assigns. *)
Definition same_settings (c c' : Client) : Prop :=
  base_url c' = base_url c
  /\ _max_retries c' = _max_retries c
  /\ _request_timeout c' = _request_timeout c
  /\ _server_error_cooldown c' = _server_error_cooldown c
  /\ _token_refresh_buffer c' = _token_refresh_buffer c
  /\ email c' = email c
  /\ password c' = password c.

(** A later world of the same oracles: the trace has grown at its end and
    [sent] has grown by the number of requests added. *)
Definition extends (w w' : World) : Prop :=
  clock w' = clock w
  /\ network w' = network w
  /\ exists evs : list Event,
       trace w' = trace w ++ evs
       /\ sent w' = (sent w + length (requests_of evs))%nat.

Definition grows (c : Client) (w : World) (c' : Client) (w' : World) : Prop :=
  same_settings c c' /\ extends w w'.


(** A run from a client without a usable token, seen from outside: what
    [grows] says, and every request of the run up to and including the
    first that installs a token goes without an [Authorization] header;
    when no request installs a token, the client is still without one
    afterwards. *)
Definition unauthenticated_run (endpoints : Endpoints)
    (c : Client) (w : World) (c' : Client) (w' : World) : Prop :=
  let login_url := base_url c +:+ ep_login endpoints in
  let signup_url := base_url c +:+ ep_signup endpoints in
  grows c w c' w'
  /\ (truthy (token c) = false ->
      sent_without_token login_url signup_url (network w) (sent w)
        (events_since w w') = true
      /\ (token_granted login_url signup_url (network w) (sent w)
            (events_since w w') = false ->
          truthy (token c') = false)).

(** ** The two phases of a run of concurrent callers *)

(** The login request a refresh sends for client [c]. *)
Definition login_request (endpoints : Endpoints) (c : Client) : Request :=
  request_args c "POST" (base_url c +:+ ep_login endpoints)
    (Some {[ "email" := str_value (email c);
             "password" := str_value (password c) ]}).








(** ** Sample runs *)

Definition sample_endpoints : Endpoints :=
  {| ep_login := "/auth/login"; ep_signup := "/auth/signup" |}.

(** A world whose clock stands at [now] and whose network answers the
    [n]-th request with [net n]. *)
Definition world_at (now : Z) (net : nat -> Outcome) : World :=
  {| clock := fun _ => now; ticks := 0; network := net; sent := 0;
     trace := [] |}.

(** The client with the defaults of [__init__]. *)
Definition sample_client : Client :=
  init "https://api.ns.gifts" 3 30 300 300.

(** The same with credentials, and with a token good for a long time. *)
Definition client_with_credentials : Client :=
  set_password (Some "secret") (set_email (Some "user@example.com") sample_client).

Definition client_with_token : Client :=
  set_token_expiry (VInt 100000) (set_token (VStr "held") client_with_credentials).

(** The same client 100 seconds after a server error at 900. *)
Definition client_in_cooldown : Client :=
  set_server_error_timestamp 900 (set_server_error_detected true client_with_token).


Definition unavailable : Outcome :=
  Failure (ClientResponseError 503 "Service Unavailable").

Definition token_body : gmap string Value :=
  {[ "access_token" := VStr "fresh"; "valid_thru" := VInt 7200 ]}.

Definition body_without_token : gmap string Value :=
  {[ "valid_thru" := VInt 7200 ]}.


(** A request during the cooldown, and a request answered with 503. *)
Definition blocked_run : Result Value * Client * World :=
  _request_with_retries sample_endpoints "POST" "/orders" None false
    client_in_cooldown (world_at 1000 (fun _ => unavailable)).

Definition unavailable_run : Result Value * Client * World :=
  _request_with_retries sample_endpoints "POST" "/orders" None false
    client_with_token (world_at 1000 (fun _ => unavailable)).


Definition tokenless_login_at_1000 : Result Value * Client * World :=
  login sample_endpoints "user@example.com" "secret" client_with_token
    (world_at 1000 (fun _ => Response (VDict body_without_token))).



(** ** The session life cycle *)

(** [close].  The session object lives outside the client: closing it
    shows here only in the handle, which is dropped. *)
Definition close : M unit :=
  c <- self ;;
  match session c with
  | Some s => if closed s then ret tt else assign (set_session None)
  | None => ret tt
  end.

(** [__aenter__] (the value it returns is the client itself) and
    [__aexit__]. *)
Definition __aenter__ : M unit := _ensure_session.

Definition __aexit__ : M unit := close.

(** [async with NSGiftsClient(...) as client: body], as the examples use
    the client: [__aexit__] returns [None], so an exception of the body is
    raised again after the session is closed. *)
Definition async_with {A} (body : M A) : M A :=
  __aenter__ ;;;
  outcome <- try body ;;
  __aexit__ ;;;
  match outcome with
  | Ok a => ret a
  | Raise ex => raise ex
  end.

(** Whether the client holds a session that is not closed. *)
Definition session_open (c : Client) : bool :=
  match session c with
  | Some s => negb (closed s)
  | None => false
  end.

(** ** The requests of a call *)

(** The JSON body of the login request a refresh makes for client [c]. *)
Definition credentials_json (c : Client) : gmap string Value :=
  {[ "email" := str_value (email c); "password" := str_value (password c) ]}.

(** A request is the call's own: the given method and JSON body, sent to
    the endpoint under the base URL with the client's timeout. *)
Definition own_request (c : Client) (method endpoint : string)
    (json_data : option (gmap string Value)) (r : Request) : Prop :=
  req_method r = method
  /\ req_url r = base_url c +:+ endpoint
  /\ req_json r = json_data
  /\ req_timeout r = _request_timeout c.

(** A request is the login request of a refresh. *)
Definition refresh_login (endpoints : Endpoints) (c : Client) (r : Request)
    : Prop :=
  own_request c "POST" (ep_login endpoints) (Some (credentials_json c)) r.

(** Whether a request goes to the login or the signup URL. *)
Definition to_token_endpoint (endpoints : Endpoints) (c : Client)
    (r : Request) : Prop :=
  req_url r = base_url c +:+ ep_login endpoints
  \/ req_url r = base_url c +:+ ep_signup endpoints.

(** The calls of the loop a call with the given arguments leads to: the
    call itself and, when [refresh] is set, the login request of a
    refresh. *)
Definition call_allowed (endpoints : Endpoints) (refresh : bool)
    (method endpoint : string) (json_data : option (gmap string Value))
    (c : Client) (m ep : string) (j : option (gmap string Value)) : Prop :=
  (m = method /\ ep = endpoint /\ j = json_data)
  \/ (refresh = true /\ m = "POST" /\ ep = ep_login endpoints
      /\ j = Some (credentials_json c)).

(** Every request a run sent is the call's own or, when [refresh] is set,
    the login request of a refresh. *)
Definition requests_allowed (endpoints : Endpoints) (refresh : bool)
    (method endpoint : string) (json_data : option (gmap string Value))
    (c : Client) (w : World) (c' : Client) (w' : World) : Prop :=
  grows c w c' w'
  /\ Forall (fun q => own_request c method endpoint json_data q
                      \/ (refresh = true /\ refresh_login endpoints c q))
       (requests_of (events_since w w')).

(** A run that sent nothing to the login or the signup URL has left the
    token and its expiry as they were. *)
Definition token_kept (endpoints : Endpoints)
    (c : Client) (w : World) (c' : Client) (w' : World) : Prop :=
  grows c w c' w'
  /\ (Forall (fun q => ~ to_token_endpoint endpoints c q)
        (requests_of (events_since w w')) ->
      token c' = token c /\ token_expiry c' = token_expiry c).

(** A run has kept an open session. *)
Definition session_kept (c : Client) (w : World) (c' : Client) (w' : World)
    : Prop :=
  session_open c = true -> session c' = session c.

(** * Properties *)

Ltac run_step :=
  unfold result_of, client_after, world_after, is_server_error_detected,
    cooldown_blocks, _is_cooldown_expired, token_check, token_needs_refresh,
    _ensure_session, reset_server_error_state, bind, ret, raise, try, self,
    assign, time_time, asyncio_sleep, session_request in *;
  cbn [fst snd] in *.

(** ** One iteration of the retry loop *)

Lemma cooldown_blocks_run (ia : bool) (c : Client) (w : World) :
  cooldown_blocks ia c w
  = (Ok (_server_error_detected c
         && negb (_server_error_timestamp c + _server_error_cooldown c
                  <=? clock w (ticks w))
         && negb ia),
     c, if _server_error_detected c then tick w else w).
Proof. run_step. destruct (_server_error_detected c); reflexivity. Qed.

Lemma cooldown_blocks_world (ia : bool) (c : Client) (w : World) :
  let w1 := world_after (cooldown_blocks ia c w) in
  clock w1 = clock w /\ network w1 = network w
  /\ sent w1 = sent w /\ trace w1 = trace w.
Proof.
  rewrite cooldown_blocks_run. unfold world_after. cbn.
  destruct (_server_error_detected c); done.
Qed.

Lemma cooldown_blocks_auth (c : Client) (w : World) :
  result_of (cooldown_blocks true c w) = Ok false.
Proof.
  rewrite cooldown_blocks_run. unfold result_of. cbn.
  by rewrite andb_false_r.
Qed.

Section Proofs.

Variable API_ENDPOINTS : Endpoints.

(** The loop body written out on the client and the world: every later
    proof about the loop rewrites with this equation. *)
Lemma retry_loop_step (evt : M unit) (rest : nat) (attempt : Z)
    (last : option TransportError) (method endpoint : string)
    (json_data : option (gmap string Value)) (ia : bool)
    (c : Client) (w : World) :
  retry_loop API_ENDPOINTS evt (S rest) attempt last
    method endpoint json_data ia c w
  = let w1 := world_after (cooldown_blocks ia c w) in
    let url := base_url c +:+ endpoint in
    let w2 := sent_request (request_args c method url json_data) w1 in
    match result_of (cooldown_blocks ia c w) with
    | Ok true =>
        (Raise (APIExn APIServerError
                  ("API server error detected. Avoiding requests for "
                   +:+ pretty (_server_error_timestamp c
                               + _server_error_cooldown c
                               - clock w (ticks w1))
                   +:+ " more seconds.") None),
         c, tick w1)
    | Ok false =>
        match network w (sent w) with
        | Response result =>
            if bool_decide (endpoint = ep_login API_ENDPOINTS)
               || bool_decide (endpoint = ep_signup API_ENDPOINTS)
            then
              match result with
              | VDict d =>
                  (Ok result,
                   set_token_expiry
                     (default (VInt (clock w (ticks w1) + 5400))
                        (d !! "valid_thru"))
                     (set_token (default VNone (d !! "access_token")) c),
                   tick w2)
              | _ => (Raise AttributeError, c, w2)
              end
            else (Ok result, c, w2)
        | Failure (ClientResponseError status message as e) =>
            if (400 <=? status) && (status <? 500) then
              if (status =? 401) && negb ia then
                match evt c w2 with
                | (Ok _, c3, w3) =>
                    retry_loop API_ENDPOINTS evt rest (attempt + 1) (Some e)
                      method endpoint json_data ia c3 w3
                | (Raise ex, c3, w3) =>
                    if is_APIAuthenticationError ex
                    then (Raise (APIExn APIAuthenticationError
                                   "Authentication failed after token refresh."
                                   (Some e)), c3, w3)
                    else (Raise ex, c3, w3)
                end
              else
                (Raise (APIExn APIClientError
                          ("Client error at " +:+ url +:+ ": "
                           +:+ pretty status +:+ " " +:+ message) (Some e)),
                 c, w2)
            else
              (Raise (APIExn APIServerError
                        ("Server error at " +:+ url +:+ ": "
                         +:+ pretty status +:+ " " +:+ message) (Some e)),
               set_server_error_timestamp (clock w (ticks w1))
                 (set_server_error_detected true c),
               tick w2)
        | Failure e =>
            if attempt <? _max_retries c - 1 then
              retry_loop API_ENDPOINTS evt rest (attempt + 1) (Some e)
                method endpoint json_data ia c (slept (1 * 2 ^ attempt) w2)
            else
              (Raise (APIExn
                        (match e with
                         | ClientConnectionError => APIConnectionError
                         | _ => APITimeoutError
                         end)
                        ((match e with
                          | ClientConnectionError => "Connection error"
                          | _ => "Request timeout"
                          end) +:+ " after " +:+ pretty (_max_retries c)
                         +:+ " attempts.") (Some e)),
               c, w2)
        end
    | Raise ex => (Raise ex, c, w1)
    end.
Proof.
  cbn [retry_loop]. unfold bind at 1. rewrite cooldown_blocks_run.
  unfold result_of, world_after. cbn [fst snd].
  set (w1 := if _server_error_detected c then tick w else w).
  assert (Hn : network w1 = network w /\ sent w1 = sent w
               /\ clock w1 = clock w).
  { subst w1. destruct (_server_error_detected c); done. }
  destruct Hn as (Hn & Hs & Hc).
  destruct (_ && _ && negb ia) eqn:Hb.
  - unfold bind, time_time, self, raise. cbn. rewrite Hc. reflexivity.
  - unfold bind at 1. unfold self at 1. unfold bind at 1.
    unfold session_request at 1. cbn [fst snd]. rewrite Hn, Hs.
    destruct (network w (sent w)) as [result | [status message | | ]].
    + destruct (_ || _); [| reflexivity].
      destruct result; try reflexivity.
      unfold bind, assign, time_time, ret. cbn. rewrite Hc. reflexivity.
    + destruct ((400 <=? status) && (status <? 500)).
      * destruct ((status =? 401) && negb ia); [| reflexivity].
        unfold bind, try.
        destruct (evt c _) as [[[[] | ex] c3] w3]; try reflexivity.
        destruct (is_APIAuthenticationError ex); reflexivity.
      * unfold bind, assign, time_time, raise. cbn. rewrite Hc. reflexivity.
    + unfold bind, self, asyncio_sleep. cbn.
      destruct (attempt <? _max_retries c - 1); reflexivity.
    + unfold bind, self, asyncio_sleep. cbn.
      destruct (attempt <? _max_retries c - 1); reflexivity.
Qed.

(** ** The server-error cooldown *)

(** C6: [is_server_error_detected] returns [True] exactly when the flag is
    set and the cooldown has not elapsed at the reading of the clock; the
    flag it leaves behind is the value it returns, so it is cleared by the
    first query at or after [_server_error_timestamp +
    _server_error_cooldown]; the timestamp is left alone. *)
Theorem is_server_error_detected_spec (c : Client) (w : World) :
  let now := clock w (ticks w) in
  let deadline := _server_error_timestamp c + _server_error_cooldown c in
  let r := is_server_error_detected c w in
  exists b : bool,
    result_of r = Ok b
    /\ (b = true <-> _server_error_detected c = true /\ now < deadline)
    /\ _server_error_detected (client_after r) = b
    /\ (deadline <= now -> _server_error_detected (client_after r) = false)
    /\ _server_error_timestamp (client_after r) = _server_error_timestamp c.
Proof.
  intros now deadline r. subst r now deadline. run_step.
  destruct (_server_error_detected c) eqn:Hd; cbn.
  - destruct (Z.leb_spec (_server_error_timestamp c + _server_error_cooldown c)
                (clock w (ticks w))) as [Hle | Hlt]; cbn.
    + exists false. repeat split; try done; lia.
    + exists true. rewrite Hd. repeat split; try done; lia.
  - exists false. rewrite Hd. repeat split; try done. intros [? _]; done.
Qed.

(** C4: in every iteration of the loop whose request is answered with a
    status of 500 or more, the executor sets [_server_error_detected],
    stores the reading of the clock in [_server_error_timestamp] and raises
    [APIServerError] caused by the response; the world afterwards holds
    this one request and nothing more, so the request is not repeated. *)
Theorem server_error_trips_and_aborts
    (evt : M unit) (rest : nat) (attempt : Z) (last : option TransportError)
    (method endpoint : string) (json_data : option (gmap string Value))
    (is_auth_request : bool) (c : Client) (w : World)
    (status : Z) (message : string) :
  let w1 := world_after (cooldown_blocks is_auth_request c w) in
  let url := base_url c +:+ endpoint in
  let now := clock w (ticks w1) in
  let r := retry_loop API_ENDPOINTS evt (S rest) attempt last
             method endpoint json_data is_auth_request c w in
  result_of (cooldown_blocks is_auth_request c w) = Ok false ->
  network w (sent w) = Failure (ClientResponseError status message) ->
  500 <= status ->
  result_of r
  = Raise (APIExn APIServerError
             ("Server error at " +:+ url +:+ ": " +:+ pretty status
              +:+ " " +:+ message)
             (Some (ClientResponseError status message)))
  /\ _server_error_detected (client_after r) = true
  /\ _server_error_timestamp (client_after r) = now
  /\ client_after r
     = set_server_error_timestamp now (set_server_error_detected true c)
  /\ world_after r
     = tick (sent_request (request_args c method url json_data) w1).
Proof.
  intros w1 url now r Hopen Hnet Hst. subst r.
  rewrite retry_loop_step, Hopen, Hnet. cbn zeta.
  replace ((400 <=? status) && (status <? 500)) with false by lia.
  done.
Qed.

(** ** Installing the token *)

(** C7: in every iteration of the loop on the login or the signup endpoint
    whose request is answered with a JSON object, the executor returns
    that object, installs its [access_token] as [token] and its
    [valid_thru], as it is, as [token_expiry]; when [valid_thru] is absent
    the expiry is the reading of the clock plus 5400. *)
Theorem token_response_installed
    (evt : M unit) (rest : nat) (attempt : Z) (last : option TransportError)
    (method endpoint : string) (json_data : option (gmap string Value))
    (is_auth_request : bool) (c : Client) (w : World)
    (d : gmap string Value) :
  let w1 := world_after (cooldown_blocks is_auth_request c w) in
  let now := clock w (ticks w1) in
  let r := retry_loop API_ENDPOINTS evt (S rest) attempt last
             method endpoint json_data is_auth_request c w in
  result_of (cooldown_blocks is_auth_request c w) = Ok false ->
  network w (sent w) = Response (VDict d) ->
  endpoint = ep_login API_ENDPOINTS \/ endpoint = ep_signup API_ENDPOINTS ->
  result_of r = Ok (VDict d)
  /\ (forall t, d !! "access_token" = Some t -> token (client_after r) = t)
  /\ (forall v, d !! "valid_thru" = Some v -> token_expiry (client_after r) = v)
  /\ (d !! "valid_thru" = None ->
      token_expiry (client_after r) = VInt (now + 5400)).
Proof.
  intros w1 now r Hopen Hnet Hep. subst r.
  rewrite retry_loop_step, Hopen, Hnet. cbn zeta.
  replace (bool_decide (endpoint = ep_login API_ENDPOINTS)
           || bool_decide (endpoint = ep_signup API_ENDPOINTS)) with true.
  2:{ symmetry. apply orb_true_iff.
      destruct Hep; [left | right]; by apply bool_decide_eq_true. }
  unfold result_of, client_after. cbn.
  repeat split.
  - intros t ->. done.
  - intros v ->. done.
  - intros ->. done.
Qed.

End Proofs.

(** ** What every call preserves *)

Lemma extends_refl (w : World) : extends w w.
Proof.
  repeat split. exists []. rewrite app_nil_r. cbn. split; [done | lia].
Qed.

Lemma extends_trans (w1 w2 w3 : World) :
  extends w1 w2 -> extends w2 w3 -> extends w1 w3.
Proof.
  intros (Hc1 & Hn1 & evs1 & Ht1 & Hs1) (Hc2 & Hn2 & evs2 & Ht2 & Hs2).
  repeat split; [congruence | congruence |].
  exists (evs1 ++ evs2). split.
  - rewrite Ht2, Ht1. by rewrite app_assoc.
  - unfold requests_of in *. rewrite omap_app, length_app. lia.
Qed.

Lemma extends_tick (w : World) : extends w (tick w).
Proof.
  repeat split. exists []. cbn. rewrite app_nil_r. split; [done | lia].
Qed.

Lemma extends_slept (s : Z) (w : World) : extends w (slept s w).
Proof.
  repeat split. exists [EvSleep s]. cbn. split; [done | lia].
Qed.

Lemma extends_sent_request (r : Request) (w : World) :
  extends w (sent_request r w).
Proof.
  repeat split. exists [EvRequest r]. cbn. split; [done | lia].
Qed.

Lemma same_settings_refl (c : Client) : same_settings c c.
Proof. by repeat split. Qed.

Lemma same_settings_trans (c1 c2 c3 : Client) :
  same_settings c1 c2 -> same_settings c2 c3 -> same_settings c1 c3.
Proof.
  unfold same_settings. intros H1 H2.
  destruct H1 as (?&?&?&?&?&?&?), H2 as (?&?&?&?&?&?&?).
  repeat split; congruence.
Qed.

Lemma grows_refl (c : Client) (w : World) : grows c w c w.
Proof. split; [apply same_settings_refl | apply extends_refl]. Qed.

Lemma grows_trans c1 w1 c2 w2 c3 w3 :
  grows c1 w1 c2 w2 -> grows c2 w2 c3 w3 -> grows c1 w1 c3 w3.
Proof.
  intros [Hs1 He1] [Hs2 He2]. split.
  - eapply same_settings_trans; eassumption.
  - eapply extends_trans; eassumption.
Qed.

Lemma grows_world (c : Client) (w w' : World) :
  extends w w' -> grows c w c w'.
Proof. intros H. split; [apply same_settings_refl | exact H]. Qed.

Lemma grows_client (c c' : Client) (w : World) :
  same_settings c c' -> grows c w c' w.
Proof. intros H. split; [exact H | apply extends_refl]. Qed.

Create HintDb grows.
#[local] Hint Resolve grows_refl extends_refl extends_tick extends_slept
  extends_sent_request same_settings_refl : grows.

Lemma cooldown_blocks_extends (ia : bool) (c : Client) (w : World) :
  extends w (world_after (cooldown_blocks ia c w)).
Proof.
  rewrite cooldown_blocks_run. unfold world_after. cbn.
  destruct (_server_error_detected c); auto with grows.
Qed.

Lemma ensure_session_run (c : Client) (w : World) :
  exists s, _ensure_session c w = (Ok tt, set_session s c, w).
Proof.
  run_step. destruct (session c) as [[rfs []] |] eqn:Hs; cbn.
  - by eexists.
  - exists (session c). rewrite Hs. destruct c; cbn in *. by subst.
  - by eexists.
Qed.

Lemma token_check_world (c : Client) (w : World) :
  client_after (token_check c w) = c /\ world_after (token_check c w) = tick w.
Proof.
  run_step. destruct (negb (truthy (token c))); [done |].
  destruct (token_expiry c); done.
Qed.

Lemma ensure_session_settings (c : Client) (w : World) :
  let c1 := client_after (_ensure_session c w) in
  same_settings c c1 /\ token c1 = token c /\ token_expiry c1 = token_expiry c
  /\ _server_error_detected c1 = _server_error_detected c
  /\ _server_error_timestamp c1 = _server_error_timestamp c.
Proof.
  destruct (ensure_session_run c w) as [s Hs]. rewrite Hs.
  unfold client_after. cbn. by repeat split.
Qed.

Section Frames.

Variable API_ENDPOINTS : Endpoints.

(** [_request_with_retries] is the loop run on the client with its
    session in place. *)
Lemma request_with_retries_via_run (evt : M unit)
    (method endpoint : string) (json_data : option (gmap string Value))
    (ia : bool) (c : Client) (w : World) :
  request_with_retries_via API_ENDPOINTS evt method endpoint json_data ia c w
  = retry_loop API_ENDPOINTS evt (Z.to_nat (_max_retries c)) 0 None
      method endpoint json_data ia (client_after (_ensure_session c w)) w.
Proof.
  unfold request_with_retries_via.
  destruct (ensure_session_run c w) as [s Hs].
  unfold bind at 1. rewrite Hs. unfold bind, self, client_after. cbn.
  reflexivity.
Qed.

(** An auth request never reaches the call of [_ensure_valid_token]:
    whatever stands for it makes no difference. *)
Lemma retry_loop_auth_callback (evt evt' : M unit) (remaining : nat) :
  forall (attempt : Z) (last : option TransportError)
         (method endpoint : string)
         (json_data : option (gmap string Value))
         (c : Client) (w : World),
    retry_loop API_ENDPOINTS evt remaining attempt last
      method endpoint json_data true c w
    = retry_loop API_ENDPOINTS evt' remaining attempt last
        method endpoint json_data true c w.
Proof.
  induction remaining as [| rest IH]; intros attempt last method endpoint
    json_data c w; [reflexivity |].
  rewrite !retry_loop_step. cbn zeta.
  destruct (result_of (cooldown_blocks true c w)) as [[] | ex]; try done.
  destruct (network w (sent w)) as [result | [status message | | ]]; try done.
  - destruct ((400 <=? status) && (status <? 500)); [| done].
    by rewrite andb_false_r.
  - by rewrite IH.
  - by rewrite IH.
Qed.

(** So the request of the refresh is [_request_with_retries] itself. *)
Lemma refresh_request_calls_executor (c : Client) (w : World) :
  refresh_request API_ENDPOINTS c w
  = (_request_with_retries API_ENDPOINTS "POST" (ep_login API_ENDPOINTS)
       (Some {[ "email" := str_value (email c);
                "password" := str_value (password c) ]})
       true ;;; ret tt) c w.
Proof.
  unfold refresh_request, _request_with_retries.
  unfold bind at 1, self at 1. unfold bind.
  rewrite !request_with_retries_via_run.
  by rewrite (retry_loop_auth_callback (ret tt)
                (_ensure_valid_token API_ENDPOINTS)).
Qed.

Section Loop.

Variable evt : M unit.
Hypothesis evt_grows :
  forall c w, grows c w (client_after (evt c w)) (world_after (evt c w)).

Lemma retry_loop_grows (remaining : nat) :
  forall (attempt : Z) (last : option TransportError)
         (method endpoint : string)
         (json_data : option (gmap string Value)) (ia : bool)
         (c : Client) (w : World),
    let r := retry_loop API_ENDPOINTS evt remaining attempt last
               method endpoint json_data ia c w in
    grows c w (client_after r) (world_after r).
Proof.
  induction remaining as [| rest IH]; intros attempt last method endpoint
    json_data ia c w r; subst r.
  - cbn. apply grows_refl.
  - rewrite retry_loop_step. cbn zeta.
    pose proof (cooldown_blocks_extends ia c w) as Hw1.
    set (w1 := world_after (cooldown_blocks ia c w)) in *.
    set (w2 := sent_request _ w1).
    assert (Hw2 : extends w w2).
    { eapply extends_trans; [exact Hw1 | apply extends_sent_request]. }
    destruct (result_of (cooldown_blocks ia c w)) as [[] | ex].
    + apply grows_world. eapply extends_trans; [exact Hw1 | apply extends_tick].
    + destruct (network w (sent w)) as [result | [status message | | ]].
      * destruct (_ || _).
        -- destruct result; try (by apply grows_world).
           split; [by repeat split |].
           eapply extends_trans; [exact Hw2 | apply extends_tick].
        -- by apply grows_world.
      * destruct ((400 <=? status) && (status <? 500)).
        -- destruct ((status =? 401) && negb ia); [| by apply grows_world].
           pose proof (evt_grows c w2) as Hevt.
           destruct (evt c w2) as [[[[] | ex] c3] w3];
             unfold client_after, world_after in Hevt; cbn in Hevt.
           ++ eapply grows_trans; [| apply IH].
              eapply grows_trans; [apply grows_world, Hw2 | exact Hevt].
           ++ assert (grows c w c3 w3).
              { eapply grows_trans; [apply grows_world, Hw2 | exact Hevt]. }
              by destruct (is_APIAuthenticationError ex).
        -- split; [by repeat split |].
           eapply extends_trans; [exact Hw2 | apply extends_tick].
      * destruct (attempt <? _max_retries c - 1); [| by apply grows_world].
        eapply grows_trans; [| apply IH]. apply grows_world.
        eapply extends_trans; [exact Hw2 | apply extends_slept].
      * destruct (attempt <? _max_retries c - 1); [| by apply grows_world].
        eapply grows_trans; [| apply IH]. apply grows_world.
        eapply extends_trans; [exact Hw2 | apply extends_slept].
    + by apply grows_world.
Qed.

Lemma request_with_retries_via_grows
    (method endpoint : string) (json_data : option (gmap string Value))
    (ia : bool) (c : Client) (w : World) :
  let r := request_with_retries_via API_ENDPOINTS evt
             method endpoint json_data ia c w in
  grows c w (client_after r) (world_after r).
Proof.
  intros r. subst r. rewrite request_with_retries_via_run.
  eapply grows_trans; [| apply retry_loop_grows].
  apply grows_client. apply ensure_session_settings.
Qed.

End Loop.

Lemma ret_tt_grows (c : Client) (w : World) :
  grows c w (client_after (ret tt c w)) (world_after (ret tt c w)).
Proof. apply grows_refl. Qed.

(** The body under the lock and the whole method, written out on the
    client and the world. *)
Lemma refresh_needed_run (c : Client) (w : World) :
  refresh_needed c w
  = (match result_of (token_check c w) with
     | Ok true =>
         if negb (truthy_str (email c)) || negb (truthy_str (password c))
         then Raise (APIExn APIAuthenticationError
                       "Token expired, but credentials are not set for refresh. Call login() first."
                       None)
         else Ok true
     | Ok false => Ok false
     | Raise ex => Raise ex
     end, c, tick w).
Proof.
  unfold refresh_needed. unfold bind at 1.
  pose proof (token_check_world c w) as [Hc Hw]. unfold result_of.
  destruct (token_check c w) as [[[stale | ex] c1] w1];
    unfold client_after, world_after in Hc, Hw; cbn in Hc, Hw; subst c1 w1;
    cbn [fst snd]; [| reflexivity].
  destruct stale; [| reflexivity].
  unfold bind, self.
  by destruct (negb (truthy_str (email c)) || negb (truthy_str (password c))).
Qed.

Lemma refresh_request_run (c : Client) (w : World) :
  refresh_request API_ENDPOINTS c w
  = match request_with_retries_via API_ENDPOINTS (ret tt) "POST"
            (ep_login API_ENDPOINTS)
            (Some {[ "email" := str_value (email c);
                     "password" := str_value (password c) ]})
            true c w with
    | (Ok _, c2, w2) => (Ok tt, c2, w2)
    | (Raise ex, c2, w2) => (Raise ex, c2, w2)
    end.
Proof.
  unfold refresh_request. unfold bind at 1, self at 1. unfold bind, ret.
  by destruct (request_with_retries_via _ _ _ _ _ _ _ _) as [[[v | ex] c2] w2].
Qed.

Lemma ensure_valid_token_locked_run (c : Client) (w : World) :
  ensure_valid_token_locked API_ENDPOINTS c w
  = match result_of (token_check c w) with
    | Ok true =>
        if negb (truthy_str (email c)) || negb (truthy_str (password c))
        then (Raise (APIExn APIAuthenticationError
                       "Token expired, but credentials are not set for refresh. Call login() first."
                       None), c, tick w)
        else
          match request_with_retries_via API_ENDPOINTS (ret tt) "POST"
                  (ep_login API_ENDPOINTS)
                  (Some {[ "email" := str_value (email c);
                           "password" := str_value (password c) ]})
                  true c (tick w) with
          | (Ok _, c2, w2) => (Ok tt, c2, w2)
          | (Raise ex, c2, w2) => (Raise ex, c2, w2)
          end
    | Ok false => (Ok tt, c, tick w)
    | Raise ex => (Raise ex, c, tick w)
    end.
Proof.
  unfold ensure_valid_token_locked, bind. rewrite refresh_needed_run.
  destruct (result_of (token_check c w)) as [[] | ex]; try reflexivity.
  destruct (negb (truthy_str (email c)) || negb (truthy_str (password c)));
    [reflexivity |].
  apply refresh_request_run.
Qed.

Lemma ensure_valid_token_run (c : Client) (w : World) :
  _ensure_valid_token API_ENDPOINTS c w
  = match result_of (token_check c w) with
    | Ok true => ensure_valid_token_locked API_ENDPOINTS c (tick w)
    | Ok false => (Ok tt, c, tick w)
    | Raise ex => (Raise ex, c, tick w)
    end.
Proof.
  unfold _ensure_valid_token, bind.
  pose proof (token_check_world c w) as [Hc Hw]. unfold result_of.
  destruct (token_check c w) as [[[stale | ex] c1] w1];
    unfold client_after, world_after in Hc, Hw; cbn in Hc, Hw; subst c1 w1;
    cbn [fst snd]; [| reflexivity].
  by destruct stale.
Qed.

Lemma ensure_valid_token_locked_grows (c : Client) (w : World) :
  let r := ensure_valid_token_locked API_ENDPOINTS c w in
  grows c w (client_after r) (world_after r).
Proof.
  intros r. subst r. rewrite ensure_valid_token_locked_run.
  destruct (result_of (token_check c w)) as [[] | ex];
    try apply grows_world, extends_tick.
  destruct (negb (truthy_str (email c)) || negb (truthy_str (password c)));
    [apply grows_world, extends_tick |].
  pose proof (request_with_retries_via_grows (ret tt) ret_tt_grows "POST"
                (ep_login API_ENDPOINTS)
                (Some {[ "email" := str_value (email c);
                         "password" := str_value (password c) ]})
                true c (tick w)) as Hg.
  cbn zeta in Hg.
  destruct (request_with_retries_via _ _ _ _ _ _ _ _) as [[[v | ex] c2] w2];
    unfold client_after, world_after in *; cbn in *;
    (eapply grows_trans; [apply grows_world, extends_tick | exact Hg]).
Qed.

Lemma ensure_valid_token_grows (c : Client) (w : World) :
  let r := _ensure_valid_token API_ENDPOINTS c w in
  grows c w (client_after r) (world_after r).
Proof.
  intros r. subst r. rewrite ensure_valid_token_run.
  destruct (result_of (token_check c w)) as [[] | ex];
    try apply grows_world, extends_tick.
  eapply grows_trans; [apply grows_world, extends_tick |].
  apply ensure_valid_token_locked_grows.
Qed.

Lemma request_with_retries_grows
    (method endpoint : string) (json_data : option (gmap string Value))
    (ia : bool) (c : Client) (w : World) :
  let r := _request_with_retries API_ENDPOINTS
             method endpoint json_data ia c w in
  grows c w (client_after r) (world_after r).
Proof.
  apply request_with_retries_via_grows. apply ensure_valid_token_grows.
Qed.

End Frames.

Section Claims.

Variable API_ENDPOINTS : Endpoints.

(** ** Credentials *)

Lemma login_run (email_given password_given : string)
    (c : Client) (w : World) :
  login API_ENDPOINTS email_given password_given c w
  = _request_with_retries API_ENDPOINTS "POST" (ep_login API_ENDPOINTS)
      (Some {[ "email" := VStr email_given;
               "password" := VStr password_given ]})
      true
      (set_password (Some password_given) (set_email (Some email_given) c))
      w.
Proof. reflexivity. Qed.

(** C10: [login] is the executor run on the client that already holds the
    given credentials, and the executor never assigns them: whatever the
    outcome of the call, and so after every failure, [email] and
    [password] are the values given. *)
Theorem login_stores_credentials_first
    (email_given password_given : string) (c : Client) (w : World) :
  let r := login API_ENDPOINTS email_given password_given c w in
  r = _request_with_retries API_ENDPOINTS "POST" (ep_login API_ENDPOINTS)
        (Some {[ "email" := VStr email_given;
                 "password" := VStr password_given ]})
        true
        (set_password (Some password_given)
           (set_email (Some email_given) c))
        w
  /\ email (client_after r) = Some email_given
  /\ password (client_after r) = Some password_given
  /\ (forall ex, result_of r = Raise ex ->
        email (client_after r) = Some email_given
        /\ password (client_after r) = Some password_given).
Proof.
  intros r. subst r. rewrite login_run.
  pose proof (request_with_retries_grows API_ENDPOINTS "POST"
                (ep_login API_ENDPOINTS)
                (Some {[ "email" := VStr email_given;
                         "password" := VStr password_given ]})
                true
                (set_password (Some password_given)
                   (set_email (Some email_given) c)) w) as [Hs _].
  cbn zeta in Hs.
  destruct Hs as (_ & _ & _ & _ & _ & He & Hp). cbn in He, Hp.
  by repeat split.
Qed.

(** ** The expiry of an installed token *)



(** ** The open breaker *)

(** An iteration that is not blocked sends its request before anything
    else. *)
Lemma retry_loop_sends_first (evt : M unit) (rest : nat) (attempt : Z)
    (last : option TransportError) (method endpoint : string)
    (json_data : option (gmap string Value)) (ia : bool)
    (c : Client) (w : World) :
  (forall c w, grows c w (client_after (evt c w)) (world_after (evt c w))) ->
  result_of (cooldown_blocks ia c w) = Ok false ->
  extends
    (sent_request
       (request_args c method (base_url c +:+ endpoint) json_data)
       (world_after (cooldown_blocks ia c w)))
    (world_after (retry_loop API_ENDPOINTS evt (S rest) attempt last
                    method endpoint json_data ia c w)).
Proof.
  intros Hevt Hopen. rewrite retry_loop_step, Hopen. cbn zeta.
  set (w2 := sent_request _ _).
  destruct (network w (sent w)) as [result | [status message | | ]].
  - destruct (_ || _); [| apply extends_refl].
    destruct result; try apply extends_refl. apply extends_tick.
  - destruct ((400 <=? status) && (status <? 500)); [| apply extends_tick].
    destruct ((status =? 401) && negb ia); [| apply extends_refl].
    pose proof (Hevt c w2) as [_ He].
    destruct (evt c w2) as [[[[] | ex] c3] w3];
      unfold world_after in He; cbn in He.
    + eapply extends_trans; [exact He |].
      apply retry_loop_grows, Hevt.
    + by destruct (is_APIAuthenticationError ex).
  - destruct (attempt <? _max_retries c - 1); [| apply extends_refl].
    eapply extends_trans; [apply extends_slept |].
    apply retry_loop_grows, Hevt.
  - destruct (attempt <? _max_retries c - 1); [| apply extends_refl].
    eapply extends_trans; [apply extends_slept |].
    apply retry_loop_grows, Hevt.
Qed.

Lemma request_args_session (c : Client) (w : World) (method url : string)
    (json_data : option (gmap string Value)) :
  request_args (client_after (_ensure_session c w)) method url json_data
  = request_args c method url json_data.
Proof.
  destruct (ensure_session_run c w) as [s Hs]. rewrite Hs. reflexivity.
Qed.

(** C2, as the code has it: a call that is not an auth request, made
    with at least one attempt allowed while the flag is set and the
    cooldown has not elapsed, raises [APIServerError], the class a 5xx
    response raises too, with the remaining seconds of the cooldown in its
    message; it sends no request and sleeps for no backoff.  The same call
    made as an auth request starts by sending its request. *)
Theorem open_breaker_fails_fast
    (method endpoint : string) (json_data : option (gmap string Value))
    (c : Client) (w : World) :
  let deadline := _server_error_timestamp c + _server_error_cooldown c in
  let r := _request_with_retries API_ENDPOINTS
             method endpoint json_data false c w in
  let r_auth := _request_with_retries API_ENDPOINTS
                  method endpoint json_data true c w in
  1 <= _max_retries c ->
  _server_error_detected c = true ->
  clock w (ticks w) < deadline ->
  result_of r
  = Raise (APIExn APIServerError
             ("API server error detected. Avoiding requests for "
              +:+ pretty (deadline - clock w (S (ticks w)))
              +:+ " more seconds.") None)
  /\ trace (world_after r) = trace w
  /\ sent (world_after r) = sent w
  /\ exists evs : list Event,
       trace (world_after r_auth)
       = trace w
         ++ EvRequest (request_args c method (base_url c +:+ endpoint)
                         json_data) :: evs.
Proof.
  intros deadline r r_auth Hmax Hdet Hnow. subst r r_auth deadline.
  unfold _request_with_retries. rewrite !request_with_retries_via_run.
  destruct (ensure_session_settings c w)
    as ((Hbase & _) & _ & _ & Hd1 & Ht1).
  pose proof (request_args_session c w) as Hargs.
  destruct (ensure_session_settings c w)
    as ((_ & _ & _ & Hcd & _) & _).
  set (c1 := client_after (_ensure_session c w)) in *.
  destruct (Z.to_nat (_max_retries c)) as [| rest] eqn:Hn; [lia |].
  split; [| split; [| split]].
  1-3: rewrite retry_loop_step, cooldown_blocks_run;
    unfold result_of, world_after; cbn [fst snd];
    rewrite Hd1, Hdet, Ht1, Hcd; cbn;
    replace (_ <=? _) with false by lia; reflexivity.
  - pose proof (retry_loop_sends_first (_ensure_valid_token API_ENDPOINTS)
                  rest 0 None method endpoint json_data true c1 w
                  (ensure_valid_token_grows API_ENDPOINTS)
                  (cooldown_blocks_auth c1 w)) as (_ & _ & evs & Htr & _).
    destruct (cooldown_blocks_world true c1 w) as (_ & _ & _ & Htr1).
    cbn [trace sent_request] in Htr. rewrite Htr1, Hbase, Hargs in Htr.
    exists evs. rewrite Htr. by rewrite <- app_assoc.
Qed.

(** ** Backoff *)










End Claims.

Section Unauthorized.

Variable API_ENDPOINTS : Endpoints.

(** ** A 401 on a request that is not an auth request *)


End Unauthorized.

(** ** Requests of a client without a token *)

Lemma sent_without_token_app (lu su : string) (net : nat -> Outcome)
    (evs1 evs2 : list Event) :
  forall k : nat,
    sent_without_token lu su net k (evs1 ++ evs2)
    = sent_without_token lu su net k evs1
      && (token_granted lu su net k evs1
          || sent_without_token lu su net
               (k + length (requests_of evs1)) evs2).
Proof.
  induction evs1 as [| [r | s] evs1 IH]; intros k.
  - cbn. by rewrite Nat.add_0_r.
  - cbn [app sent_without_token token_granted requests_of omap list_omap length].
    rewrite IH. fold (requests_of evs1).
    replace (S k + length (requests_of evs1))%nat
      with (k + S (length (requests_of evs1)))%nat by lia.
    destruct (req_headers r !! "Authorization"); [done |].
    destruct (grants_token lu su r (net k)),
             (sent_without_token lu su net (S k) evs1),
             (token_granted lu su net (S k) evs1); done.
  - cbn [app sent_without_token token_granted requests_of omap list_omap].
    apply IH.
Qed.

Lemma token_granted_app (lu su : string) (net : nat -> Outcome)
    (evs1 evs2 : list Event) :
  forall k : nat,
    token_granted lu su net k (evs1 ++ evs2)
    = token_granted lu su net k evs1
      || token_granted lu su net (k + length (requests_of evs1)) evs2.
Proof.
  induction evs1 as [| [r | s] evs1 IH]; intros k.
  - cbn. by rewrite Nat.add_0_r.
  - cbn [app token_granted requests_of omap list_omap length].
    rewrite IH. fold (requests_of evs1).
    replace (S k + length (requests_of evs1))%nat
      with (k + S (length (requests_of evs1)))%nat by lia.
    by rewrite orb_assoc.
  - cbn [app token_granted requests_of omap list_omap]. apply IH.
Qed.

Lemma events_since_trans (w1 w2 w3 : World) :
  extends w1 w2 -> extends w2 w3 ->
  events_since w1 w3 = events_since w1 w2 ++ events_since w2 w3.
Proof.
  intros (_ & _ & evs1 & Ht1 & _) (_ & _ & evs2 & Ht2 & _).
  unfold events_since. rewrite Ht2, Ht1.
  rewrite (drop_app_length (trace w1 ++ evs1) evs2).
  rewrite <- (app_assoc (trace w1) evs1 evs2).
  by rewrite !drop_app_length.
Qed.

Lemma extends_events (w w' : World) :
  extends w w' ->
  trace w' = trace w ++ events_since w w'
  /\ sent w' = (sent w + length (requests_of (events_since w w')))%nat.
Proof.
  intros (_ & _ & evs & Ht & Hs). unfold events_since.
  by rewrite Ht, drop_app_length.
Qed.

Lemma get_headers_without_token (c : Client) :
  truthy (token c) = false -> _get_headers c !! "Authorization" = None.
Proof. intros H. unfold _get_headers. by rewrite H. Qed.

Section Watch.

Variable API_ENDPOINTS : Endpoints.

Lemma watched_silent (c c' : Client) (w w' : World) :
  grows c w c' w' ->
  token c' = token c ->
  requests_of (events_since w w') = [] ->
  unauthenticated_run API_ENDPOINTS c w c' w'.
Proof.
  intros Hg Htok Hev. split; [exact Hg |]. intros Hfalsy.
  assert (Hnone : forall lu su net k evs,
             requests_of evs = [] ->
             sent_without_token lu su net k evs = true
             /\ token_granted lu su net k evs = false).
  { intros lu su net k evs. induction evs as [| [r | s] evs IH]; [done | done |].
    intros H. apply IH, H. }
  destruct (Hnone (base_url c +:+ ep_login API_ENDPOINTS)
              (base_url c +:+ ep_signup API_ENDPOINTS)
              (network w) (sent w) _ Hev) as [-> _].
  split; [done |]. intros _. by rewrite Htok.
Qed.

Lemma watched_refl (c : Client) (w : World) :
  unauthenticated_run API_ENDPOINTS c w c w.
Proof.
  apply watched_silent; [apply grows_refl | done |].
  unfold events_since. by rewrite drop_all.
Qed.

Lemma watched_tick (c : Client) (w : World) :
  unauthenticated_run API_ENDPOINTS c w c (tick w).
Proof.
  apply watched_silent; [apply grows_world, extends_tick | done |].
  unfold events_since. cbn. by rewrite drop_all.
Qed.

Lemma watched_slept (c : Client) (w : World) (s : Z) :
  unauthenticated_run API_ENDPOINTS c w c (slept s w).
Proof.
  apply watched_silent; [apply grows_world, extends_slept | done |].
  unfold events_since. cbn. by rewrite drop_app_length.
Qed.

Lemma watched_check (ia : bool) (c : Client) (w : World) :
  unauthenticated_run API_ENDPOINTS c w c
    (world_after (cooldown_blocks ia c w)).
Proof.
  rewrite cooldown_blocks_run. unfold world_after. cbn.
  destruct (_server_error_detected c); [apply watched_tick | apply watched_refl].
Qed.

Lemma watched_trans (c1 c2 c3 : Client) (w1 w2 w3 : World) :
  unauthenticated_run API_ENDPOINTS c1 w1 c2 w2 ->
  unauthenticated_run API_ENDPOINTS c2 w2 c3 w3 ->
  unauthenticated_run API_ENDPOINTS c1 w1 c3 w3.
Proof.
  intros [Hg1 H1] [Hg2 H2].
  split; [eapply grows_trans; eassumption |].
  intros Hfalsy. specialize (H1 Hfalsy) as [Hm1 Hk1].
  destruct Hg1 as [Hs1 He1], Hg2 as [Hs2 He2].
  rewrite (events_since_trans w1 w2 w3 He1 He2).
  rewrite sent_without_token_app, token_granted_app, Hm1.
  destruct (extends_events w1 w2 He1) as [_ Hsent].
  destruct He1 as (_ & Hnet & _).
  destruct Hs1 as (Hbase & _).
  rewrite Hbase, Hnet, Hsent in H2.
  destruct (token_granted _ _ _ _ (events_since w1 w2)); [done |].
  specialize (H2 (Hk1 eq_refl)) as [Hm2 Hk2].
  cbn. rewrite Hm2. done.
Qed.

(** The request itself, sent by a client without a token. *)
Lemma watched_request (c : Client) (w : World) (method url : string)
    (json_data : option (gmap string Value)) :
  unauthenticated_run API_ENDPOINTS c w c
    (sent_request (request_args c method url json_data) w).
Proof.
  split; [apply grows_world, extends_sent_request |].
  intros Hfalsy. unfold events_since. cbn [trace sent_request].
  rewrite drop_app_length. cbn.
  rewrite (get_headers_without_token c Hfalsy), orb_true_r. done.
Qed.

(** The request that is answered on the login or the signup endpoint. *)
Lemma watched_granting (c c' : Client) (w : World)
    (method endpoint : string) (json_data : option (gmap string Value))
    (result : Value) :
  same_settings c c' ->
  endpoint = ep_login API_ENDPOINTS \/ endpoint = ep_signup API_ENDPOINTS ->
  network w (sent w) = Response result ->
  unauthenticated_run API_ENDPOINTS c w c'
    (tick (sent_request
             (request_args c method (base_url c +:+ endpoint) json_data) w)).
Proof.
  intros Hs Hep Hnet. split.
  { split; [exact Hs |].
    eapply extends_trans; [apply extends_sent_request | apply extends_tick]. }
  intros Hfalsy. unfold events_since. cbn [trace sent_request tick].
  rewrite drop_app_length. cbn.
  rewrite (get_headers_without_token c Hfalsy).
  unfold grants_token. rewrite Hnet. cbn.
  assert (Hg : bool_decide (base_url c +:+ endpoint
                            = base_url c +:+ ep_login API_ENDPOINTS)
               || bool_decide (base_url c +:+ endpoint
                               = base_url c +:+ ep_signup API_ENDPOINTS)
               = true).
  { apply orb_true_iff.
    destruct Hep as [-> | ->]; [left | right]; by apply bool_decide_eq_true. }
  rewrite Hg. done.
Qed.

Section Loop.

Variable evt : M unit.
Hypothesis evt_watched :
  forall c w,
    unauthenticated_run API_ENDPOINTS c w
      (client_after (evt c w)) (world_after (evt c w)).

Lemma retry_loop_watched (remaining : nat) :
  forall (attempt : Z) (last : option TransportError)
         (method endpoint : string)
         (json_data : option (gmap string Value)) (ia : bool)
         (c : Client) (w : World),
    let r := retry_loop API_ENDPOINTS evt remaining attempt last
               method endpoint json_data ia c w in
    unauthenticated_run API_ENDPOINTS c w (client_after r) (world_after r).
Proof.
  induction remaining as [| rest IH]; intros attempt last method endpoint
    json_data ia c w r; subst r.
  - cbn. apply watched_refl.
  - rewrite retry_loop_step. cbn zeta.
    pose proof (watched_check ia c w) as Hw1.
    destruct (cooldown_blocks_world ia c w) as (_ & Hn1 & Hs1 & _).
    set (w1 := world_after (cooldown_blocks ia c w)) in *.
    set (req := request_args c method (base_url c +:+ endpoint) json_data).
    assert (Hw2 : unauthenticated_run API_ENDPOINTS c w c
                    (sent_request req w1)).
    { eapply watched_trans; [exact Hw1 | apply watched_request]. }
    destruct (result_of (cooldown_blocks ia c w)) as [[] | ex].
    + eapply watched_trans; [exact Hw1 | apply watched_tick].
    + destruct (network w (sent w)) as [result | [status message | | ]] eqn:Hnet.
      * destruct (_ || _) eqn:Hep; [| exact Hw2].
        destruct result; try exact Hw2.
        eapply watched_trans; [exact Hw1 |].
        apply watched_granting with (result := VDict d).
        -- by repeat split.
        -- apply orb_true_iff in Hep.
           destruct Hep as [H | H]; apply bool_decide_eq_true in H; auto.
        -- by rewrite Hn1, Hs1.
      * destruct ((400 <=? status) && (status <? 500)).
        -- destruct ((status =? 401) && negb ia); [| exact Hw2].
           pose proof (evt_watched c (sent_request req w1)) as Hevt.
           destruct (evt c (sent_request req w1)) as [[[[] | ex] c3] w3];
             unfold client_after, world_after in Hevt; cbn in Hevt.
           ++ eapply watched_trans; [| apply IH].
              eapply watched_trans; [exact Hw2 | exact Hevt].
           ++ assert (unauthenticated_run API_ENDPOINTS c w c3 w3).
              { eapply watched_trans; [exact Hw2 | exact Hevt]. }
              by destruct (is_APIAuthenticationError ex).
        -- eapply watched_trans; [exact Hw2 |].
           apply watched_silent.
           ++ split; [by repeat split | apply extends_tick].
           ++ done.
           ++ unfold events_since. cbn. by rewrite drop_all.
      * destruct (attempt <? _max_retries c - 1); [| exact Hw2].
        eapply watched_trans; [| apply IH].
        eapply watched_trans; [exact Hw2 | apply watched_slept].
      * destruct (attempt <? _max_retries c - 1); [| exact Hw2].
        eapply watched_trans; [| apply IH].
        eapply watched_trans; [exact Hw2 | apply watched_slept].
    + exact Hw1.
Qed.

Lemma request_with_retries_via_watched
    (method endpoint : string) (json_data : option (gmap string Value))
    (ia : bool) (c : Client) (w : World) :
  let r := request_with_retries_via API_ENDPOINTS evt
             method endpoint json_data ia c w in
  unauthenticated_run API_ENDPOINTS c w (client_after r) (world_after r).
Proof.
  intros r. subst r. rewrite request_with_retries_via_run.
  eapply watched_trans; [| apply retry_loop_watched].
  destruct (ensure_session_settings c w) as (Hs & Htok & _).
  apply watched_silent.
  - by apply grows_client.
  - exact Htok.
  - unfold events_since. by rewrite drop_all.
Qed.

End Loop.

Lemma ensure_valid_token_locked_watched (c : Client) (w : World) :
  let r := ensure_valid_token_locked API_ENDPOINTS c w in
  unauthenticated_run API_ENDPOINTS c w (client_after r) (world_after r).
Proof.
  intros r. subst r. rewrite ensure_valid_token_locked_run.
  destruct (result_of (token_check c w)) as [[] | ex];
    try apply watched_tick.
  destruct (negb (truthy_str (email c)) || negb (truthy_str (password c)));
    [apply watched_tick |].
  pose proof (request_with_retries_via_watched (ret tt)
                (fun c w => watched_refl c w) "POST"
                (ep_login API_ENDPOINTS)
                (Some {[ "email" := str_value (email c);
                         "password" := str_value (password c) ]})
                true c (tick w)) as Hg.
  cbn zeta in Hg.
  destruct (request_with_retries_via _ _ _ _ _ _ _ _) as [[[v | ex] c2] w2];
    unfold client_after, world_after in *; cbn in *;
    (eapply watched_trans; [apply watched_tick | exact Hg]).
Qed.

Lemma ensure_valid_token_watched (c : Client) (w : World) :
  let r := _ensure_valid_token API_ENDPOINTS c w in
  unauthenticated_run API_ENDPOINTS c w (client_after r) (world_after r).
Proof.
  intros r. subst r. rewrite ensure_valid_token_run.
  destruct (result_of (token_check c w)) as [[] | ex];
    try apply watched_tick.
  eapply watched_trans; [apply watched_tick |].
  apply ensure_valid_token_locked_watched.
Qed.

Lemma request_with_retries_watched
    (method endpoint : string) (json_data : option (gmap string Value))
    (ia : bool) (c : Client) (w : World) :
  let r := _request_with_retries API_ENDPOINTS
             method endpoint json_data ia c w in
  unauthenticated_run API_ENDPOINTS c w (client_after r) (world_after r).
Proof.
  apply request_with_retries_via_watched. apply ensure_valid_token_watched.
Qed.

End Watch.

Section Cleared.

Variable API_ENDPOINTS : Endpoints.

(** C9, as the code has it: in every iteration of the loop on the login
    or the signup endpoint whose request is answered with a JSON object
    without [access_token], the executor installs [None] as the token,
    whatever token was held, and stores [valid_thru] as the expiry, or the
    reading of the clock plus 5400 when [valid_thru] is absent as well.
    From then on, as long as the token is this [None], [_get_headers] has
    no [Authorization] entry, and in every later call of the executor
    every request up to and including the first that is answered on the
    login or the signup endpoint is sent without that header. *)
Theorem missing_access_token_clears_token
    (evt : M unit) (rest : nat) (attempt : Z) (last : option TransportError)
    (method endpoint : string) (json_data : option (gmap string Value))
    (is_auth_request : bool) (c : Client) (w : World)
    (d : gmap string Value) :
  let w1 := world_after (cooldown_blocks is_auth_request c w) in
  let now := clock w (ticks w1) in
  let r := retry_loop API_ENDPOINTS evt (S rest) attempt last
             method endpoint json_data is_auth_request c w in
  result_of (cooldown_blocks is_auth_request c w) = Ok false ->
  network w (sent w) = Response (VDict d) ->
  endpoint = ep_login API_ENDPOINTS \/ endpoint = ep_signup API_ENDPOINTS ->
  d !! "access_token" = None ->
  token (client_after r) = VNone
  /\ token_expiry (client_after r)
     = default (VInt (now + 5400)) (d !! "valid_thru")
  /\ (d !! "valid_thru" = None ->
      token_expiry (client_after r) = VInt (now + 5400))
  /\ _get_headers (client_after r) !! "Authorization" = None
  /\ forall (c2 : Client) (w2 : World) (method2 endpoint2 : string)
            (json_data2 : option (gmap string Value)) (is_auth_request2 : bool),
       token c2 = token (client_after r) ->
       _get_headers c2 !! "Authorization" = None
       /\ sent_without_token
            (base_url c2 +:+ ep_login API_ENDPOINTS)
            (base_url c2 +:+ ep_signup API_ENDPOINTS)
            (network w2) (sent w2)
            (events_since w2
               (world_after
                  (_request_with_retries API_ENDPOINTS method2 endpoint2
                     json_data2 is_auth_request2 c2 w2)))
          = true.
Proof.
  intros w1 now r Hopen Hnet Hep Hmiss.
  assert (Hr : r = (Ok (VDict d),
                    set_token_expiry
                      (default (VInt (now + 5400)) (d !! "valid_thru"))
                      (set_token (default VNone (d !! "access_token")) c),
                    tick (sent_request
                            (request_args c method (base_url c +:+ endpoint)
                               json_data) w1))).
  { subst r. rewrite retry_loop_step, Hopen, Hnet. cbn zeta.
    replace (bool_decide (endpoint = ep_login API_ENDPOINTS)
             || bool_decide (endpoint = ep_signup API_ENDPOINTS)) with true;
      [done |].
    symmetry. apply orb_true_iff.
    destruct Hep; [left | right]; by apply bool_decide_eq_true. }
  clearbody r. subst r. unfold client_after. cbn [fst snd].
  rewrite Hmiss. cbn [default token token_expiry set_token set_token_expiry].
  split; [done |]. split; [done |]. split; [by intros -> |].
  split; [done |].
  intros c2 w2 method2 endpoint2 json_data2 ia2 Htok.
  assert (Hfalsy : truthy (token c2) = false) by (by rewrite Htok).
  split; [by apply get_headers_without_token |].
  pose proof (request_with_retries_watched API_ENDPOINTS method2 endpoint2
                json_data2 ia2 c2 w2) as [_ Hw].
  by destruct (Hw Hfalsy) as [Hm _].
Qed.

End Cleared.

(** ** Several callers of [_ensure_valid_token] *)

Lemma token_needs_refresh_run (t : Z) (c : Client) (w : World) :
  token_needs_refresh t c w = (result_of (token_needs_refresh t c w), c, w).
Proof.
  run_step. destruct (negb (truthy (token c))); [done |].
  by destruct (token_expiry c).
Qed.


Lemma token_check_run (c : Client) (w : World) :
  token_check c w
  = (result_of (token_needs_refresh (clock w (ticks w)) c w), c, tick w).
Proof.
  run_step. destruct (negb (truthy (token c))); [done |].
  by destruct (token_expiry c).
Qed.


Section Concurrency.

Variable API_ENDPOINTS : Endpoints.

(** With one caller the three steps are the method itself. *)
Lemma single_caller_sequential (c : Client) (w : World) :
  let s := run_schedule API_ENDPOINTS [0; 0; 0]%nat
             (concurrent_callers 1 c w) in
  let r := _ensure_valid_token API_ENDPOINTS c w in
  callers s = [Returned (result_of r)]
  /\ sys_client s = client_after r
  /\ sys_world s = world_after r
  /\ _token_lock s = false.
Proof.
  intros s r. subst s r. rewrite ensure_valid_token_run.
  unfold ensure_valid_token_locked, bind.
  cbn -[refresh_request refresh_needed token_check].
  rewrite token_check_run. cbn [result_of fst snd].
  destruct (result_of (token_needs_refresh (clock w (ticks w)) c w))
    as [[] | ex]; cbn -[refresh_request refresh_needed token_check];
    try done.
  destruct (refresh_needed c (tick w)) as [[[[] | ex] c1] w1];
    cbn -[refresh_request refresh_needed token_check]; try done.
  by destruct (refresh_request API_ENDPOINTS c1 w1) as [[r2 c2] w2].
Qed.



Section OneRefresh.

Variables (c0 : Client) (w0 : World) (d : gmap string Value)
          (t : Value) (v : Z).

Hypothesis stale_at_every_reading :
  forall k : nat,
    result_of (token_needs_refresh (clock w0 k) c0 w0) = Ok true.
Hypothesis email_set : truthy_str (email c0) = true.
Hypothesis password_set : truthy_str (password c0) = true.
Hypothesis one_attempt : 1 <= _max_retries c0.
Hypothesis answered : network w0 (sent w0) = Response (VDict d).
Hypothesis token_given : d !! "access_token" = Some t.
Hypothesis token_usable : truthy t = true.
Hypothesis expiry_given : d !! "valid_thru" = Some (VInt v).
Hypothesis fresh_at_every_reading :
  forall k : nat, _token_refresh_buffer c0 <= v - clock w0 k.








End OneRefresh.

End Concurrency.

Section OneRefreshClaim.

Variable API_ENDPOINTS : Endpoints.


End OneRefreshClaim.

(** * The theorems on the sample runs *)



(** C2 at a request made 100 seconds into a cooldown of 300. *)
Lemma open_breaker_fails_fast_witness :
  1 <= _max_retries client_in_cooldown
  /\ _server_error_detected client_in_cooldown = true
  /\ result_of blocked_run
     = Raise (APIExn APIServerError
                "API server error detected. Avoiding requests for 200 more seconds."
                None)
  /\ trace (world_after blocked_run) = [].
Proof.
  pose proof (open_breaker_fails_fast sample_endpoints "POST" "/orders" None
                client_in_cooldown (world_at 1000 (fun _ => unavailable))
                ltac:(vm_compute; discriminate) eq_refl eq_refl)
    as (Hres & Htrace & _).
  split; [vm_compute; discriminate |]. split; [reflexivity |].
  split; [exact Hres | exact Htrace].
Defined.

(** C2 as stated fails: the error raised while the cooldown runs and the
    error raised for a 503 are of the same class. *)
Lemma server_busy_same_class_counterexample :
  ~ (forall e1 e2 : Exn,
       result_of blocked_run = Raise e1 ->
       result_of unavailable_run = Raise e2 ->
       class_of e1 <> class_of e2).
Proof.
  intros H.
  apply (H (APIExn APIServerError
              "API server error detected. Avoiding requests for 200 more seconds."
              None)
           (APIExn APIServerError
              "Server error at https://api.ns.gifts/orders: 503 Service Unavailable"
              (Some (ClientResponseError 503 "Service Unavailable"))));
    vm_compute; reflexivity.
Qed.



(** C4 at a first attempt answered with 503 at time 1000. *)
Lemma server_error_trips_and_aborts_witness :
  network (world_at 1000 (fun _ => unavailable)) 0%nat = unavailable
  /\ _server_error_detected
       (client_after
          (retry_loop sample_endpoints (ret tt) 3 0 None "POST" "/orders" None
             false client_with_token (world_at 1000 (fun _ => unavailable))))
     = true
  /\ _server_error_timestamp
       (client_after
          (retry_loop sample_endpoints (ret tt) 3 0 None "POST" "/orders" None
             false client_with_token (world_at 1000 (fun _ => unavailable))))
     = 1000.
Proof.
  pose proof (server_error_trips_and_aborts sample_endpoints (ret tt) 2 0 None
                "POST" "/orders" None false client_with_token
                (world_at 1000 (fun _ => unavailable))
                503 "Service Unavailable" eq_refl eq_refl
                ltac:(vm_compute; discriminate))
    as (_ & Hd & Ht & _).
  split; [reflexivity |]. split; [exact Hd | exact Ht].
Defined.


(** C7 at a signup answered with a token and an expiry. *)
Lemma token_response_installed_witness :
  network (world_at 1000 (fun _ => Response (VDict token_body))) 0%nat
  = Response (VDict token_body)
  /\ token (client_after
              (retry_loop sample_endpoints (ret tt) 3 0 None "POST"
                 "/auth/signup" None true sample_client
                 (world_at 1000 (fun _ => Response (VDict token_body)))))
     = VStr "fresh"
  /\ token_expiry
       (client_after
          (retry_loop sample_endpoints (ret tt) 3 0 None "POST"
             "/auth/signup" None true sample_client
             (world_at 1000 (fun _ => Response (VDict token_body)))))
     = VInt 7200.
Proof.
  pose proof (token_response_installed sample_endpoints (ret tt) 2 0 None
                "POST" "/auth/signup" None true sample_client
                (world_at 1000 (fun _ => Response (VDict token_body)))
                token_body eq_refl eq_refl (or_intror eq_refl))
    as (_ & Htok & Hexp & _).
  split; [reflexivity |].
  split; [apply Htok | apply Hexp]; vm_compute; reflexivity.
Defined.



(** C9 at a login answered without [access_token] while a token is held. *)
Lemma missing_access_token_clears_token_witness :
  token_body !! "valid_thru" = Some (VInt 7200)
  /\ body_without_token !! "access_token" = None
  /\ token client_with_token = VStr "held"
  /\ token (client_after
              (retry_loop sample_endpoints (ret tt) 3 0 None "POST"
                 "/auth/login" None true client_with_token
                 (world_at 1000 (fun _ => Response (VDict body_without_token)))))
     = VNone.
Proof.
  split; [vm_compute; reflexivity |]. split; [vm_compute; reflexivity |].
  split; [reflexivity |].
  apply (missing_access_token_clears_token sample_endpoints (ret tt) 2 0 None
           "POST" "/auth/login" None true client_with_token
           (world_at 1000 (fun _ => Response (VDict body_without_token)))
           body_without_token eq_refl eq_refl (or_introl eq_refl)).
  vm_compute; reflexivity.
Defined.

(** C9 as stated fails on [tokenless_login_at_1000]: the response lacks
    [access_token] and the clock reads 1000, yet the expiry stored is the
    [valid_thru] of the response and not 1000 + 5400. *)
Lemma missing_access_token_expiry_counterexample :
  body_without_token !! "access_token" = None
  /\ result_of tokenless_login_at_1000 = Ok (VDict body_without_token)
  /\ (forall k : nat, clock (world_after tokenless_login_at_1000) k = 1000)
  /\ token (client_after tokenless_login_at_1000) = VNone
  /\ token_expiry (client_after tokenless_login_at_1000) = VInt 7200
  /\ token_expiry (client_after tokenless_login_at_1000) <> VInt (1000 + 5400).
Proof.
  split; [vm_compute; reflexivity |]. split; [vm_compute; reflexivity |].
  split; [intros k; reflexivity |]. split; [vm_compute; reflexivity |].
  split; [vm_compute; reflexivity |]. vm_compute. discriminate.
Qed.

(** C6 at a query made 100 seconds into a cooldown of 300 and at one made
    after its end. *)
Lemma is_server_error_detected_spec_witness :
  (exists b : bool,
     result_of (is_server_error_detected client_in_cooldown
                  (world_at 1000 (fun _ => unavailable))) = Ok b
     /\ b = true)
  /\ _server_error_detected
       (client_after (is_server_error_detected client_in_cooldown
                        (world_at 1200 (fun _ => unavailable)))) = false.
Proof.
  split.
  - destruct (is_server_error_detected_spec client_in_cooldown
                (world_at 1000 (fun _ => unavailable)))
      as (b & Hres & Hiff & _).
    exists b. split; [exact Hres |]. apply Hiff. split; reflexivity.
  - destruct (is_server_error_detected_spec client_in_cooldown
                (world_at 1200 (fun _ => unavailable)))
      as (b & _ & _ & _ & Hclear & _).
    apply Hclear. vm_compute. discriminate.
Defined.

(** C10 at a login whose request is answered with 503. *)
Lemma login_stores_credentials_first_witness :
  (exists ex, result_of (login sample_endpoints "new@example.com" "changed"
                           client_with_credentials
                           (world_at 1000 (fun _ => unavailable))) = Raise ex)
  /\ email (client_after (login sample_endpoints "new@example.com" "changed"
                            client_with_credentials
                            (world_at 1000 (fun _ => unavailable))))
     = Some "new@example.com"
  /\ password (client_after (login sample_endpoints "new@example.com" "changed"
                               client_with_credentials
                               (world_at 1000 (fun _ => unavailable))))
     = Some "changed".
Proof.
  split; [eexists; vm_compute; reflexivity |].
  destruct (login_stores_credentials_first sample_endpoints "new@example.com"
              "changed" client_with_credentials
              (world_at 1000 (fun _ => unavailable))) as (_ & He & Hp & _).
  split; [exact He | exact Hp].
Defined.

(** * Further properties of the client *)

(** ** Relations every call respects

    A relation between the state before and the state after that is
    reflexive and transitive and holds across each elementary effect of the
    executor holds across every call.  [A] tells which requests the
    relation allows: the call's own and the login request of a refresh. *)

Section Relational.

Variable API_ENDPOINTS : Endpoints.
Variable R : Client -> World -> Client -> World -> Prop.
Variable A : Client -> string -> string -> option (gmap string Value) -> Prop.

Hypothesis R_refl : forall c w, R c w c w.
Hypothesis R_trans :
  forall c1 w1 c2 w2 c3 w3, R c1 w1 c2 w2 -> R c2 w2 c3 w3 -> R c1 w1 c3 w3.
Hypothesis R_tick : forall c w, R c w c (tick w).
Hypothesis R_slept : forall c w s, R c w c (slept s w).
Hypothesis R_session :
  forall c w, R c w (client_after (_ensure_session c w)) w.
Hypothesis R_send :
  forall c w m ep j,
    A c m ep j ->
    R c w c (sent_request (request_args c m (base_url c +:+ ep) j) w).
Hypothesis R_install :
  forall c w m ep j d now,
    A c m ep j ->
    ep = ep_login API_ENDPOINTS \/ ep = ep_signup API_ENDPOINTS ->
    network w (sent w) = Response (VDict d) ->
    R c w
      (set_token_expiry (default (VInt (now + 5400)) (d !! "valid_thru"))
         (set_token (default VNone (d !! "access_token")) c))
      (tick (sent_request (request_args c m (base_url c +:+ ep) j) w)).
Hypothesis R_trip :
  forall c w m ep j status message now,
    A c m ep j ->
    network w (sent w) = Failure (ClientResponseError status message) ->
    (400 <=? status) && (status <? 500) = false ->
    R c w
      (set_server_error_timestamp now (set_server_error_detected true c))
      (tick (sent_request (request_args c m (base_url c +:+ ep) j) w)).
Hypothesis A_keeps :
  forall c w c' w' m ep j, R c w c' w' -> A c m ep j -> A c' m ep j.
Hypothesis A_login :
  forall c, A c "POST" (ep_login API_ENDPOINTS) (Some (credentials_json c)).

Lemma cooldown_blocks_rel (ia : bool) (c : Client) (w : World) :
  R c w c (world_after (cooldown_blocks ia c w)).
Proof.
  rewrite cooldown_blocks_run. unfold world_after. cbn.
  destruct (_server_error_detected c); [apply R_tick | apply R_refl].
Qed.

Section Loop.

Variable evt : M unit.
Hypothesis R_evt :
  forall c w, R c w (client_after (evt c w)) (world_after (evt c w)).

Lemma retry_loop_rel (remaining : nat) :
  forall (attempt : Z) (last : option TransportError)
         (method endpoint : string)
         (json_data : option (gmap string Value)) (ia : bool)
         (c : Client) (w : World),
    A c method endpoint json_data ->
    let r := retry_loop API_ENDPOINTS evt remaining attempt last
               method endpoint json_data ia c w in
    R c w (client_after r) (world_after r).
Proof.
  induction remaining as [| rest IH]; intros attempt last method endpoint
    json_data ia c w HA r; subst r.
  - cbn. apply R_refl.
  - rewrite retry_loop_step. cbn zeta.
    pose proof (cooldown_blocks_rel ia c w) as Hw1.
    destruct (cooldown_blocks_world ia c w) as (_ & Hn1 & Hs1 & _).
    set (w1 := world_after (cooldown_blocks ia c w)) in *.
    set (req := request_args c method (base_url c +:+ endpoint) json_data).
    assert (Hw2 : R c w c (sent_request req w1)).
    { eapply R_trans; [exact Hw1 | by apply R_send]. }
    destruct (result_of (cooldown_blocks ia c w)) as [[] | ex].
    + eapply R_trans; [exact Hw1 | apply R_tick].
    + destruct (network w (sent w)) as [result | [status message | | ]]
        eqn:Hnet.
      * destruct (_ || _) eqn:Hep; [| exact Hw2].
        destruct result; try exact Hw2.
        eapply R_trans; [exact Hw1 |].
        apply R_install; [exact HA | | by rewrite Hn1, Hs1].
        apply orb_true_iff in Hep.
        destruct Hep as [H | H]; apply bool_decide_eq_true in H; auto.
      * destruct ((400 <=? status) && (status <? 500)) eqn:Hst.
        -- destruct ((status =? 401) && negb ia); [| exact Hw2].
           pose proof (R_evt c (sent_request req w1)) as Hevt.
           destruct (evt c (sent_request req w1)) as [[[[] | ex] c3] w3];
             unfold client_after, world_after in Hevt; cbn in Hevt.
           ++ assert (Hc3 : R c w c3 w3).
              { eapply R_trans; [exact Hw2 | exact Hevt]. }
              eapply R_trans; [exact Hc3 |].
              apply IH. exact (A_keeps _ _ _ _ _ _ _ Hc3 HA).
           ++ assert (R c w c3 w3).
              { eapply R_trans; [exact Hw2 | exact Hevt]. }
              by destruct (is_APIAuthenticationError ex).
        -- eapply R_trans; [exact Hw1 |].
           apply (R_trip c w1 method endpoint json_data status message);
             [exact HA | by rewrite Hn1, Hs1 | exact Hst].
      * destruct (attempt <? _max_retries c - 1); [| exact Hw2].
        assert (Hsl : R c w c (slept (1 * 2 ^ attempt) (sent_request req w1))).
        { eapply R_trans; [exact Hw2 | apply R_slept]. }
        eapply R_trans; [exact Hsl |].
        apply IH. exact (A_keeps _ _ _ _ _ _ _ Hsl HA).
      * destruct (attempt <? _max_retries c - 1); [| exact Hw2].
        assert (Hsl : R c w c (slept (1 * 2 ^ attempt) (sent_request req w1))).
        { eapply R_trans; [exact Hw2 | apply R_slept]. }
        eapply R_trans; [exact Hsl |].
        apply IH. exact (A_keeps _ _ _ _ _ _ _ Hsl HA).
    + exact Hw1.
Qed.

Lemma request_with_retries_via_rel
    (method endpoint : string) (json_data : option (gmap string Value))
    (ia : bool) (c : Client) (w : World) :
  A c method endpoint json_data ->
  let r := request_with_retries_via API_ENDPOINTS evt
             method endpoint json_data ia c w in
  R c w (client_after r) (world_after r).
Proof.
  intros HA r. subst r. rewrite request_with_retries_via_run.
  eapply R_trans; [apply (R_session c w) |].
  apply retry_loop_rel. exact (A_keeps _ _ _ _ _ _ _ (R_session c w) HA).
Qed.

End Loop.

Lemma refresh_request_rel (c : Client) (w : World) :
  let r := refresh_request API_ENDPOINTS c w in
  R c w (client_after r) (world_after r).
Proof.
  intros r. subst r. rewrite refresh_request_run.
  pose proof (request_with_retries_via_rel (ret tt) R_refl "POST"
                (ep_login API_ENDPOINTS) (Some (credentials_json c))
                true c w (A_login c)) as Hg.
  cbn zeta in Hg. unfold credentials_json in Hg.
  by destruct (request_with_retries_via _ _ _ _ _ _ _ _) as [[[v | ex] c2] w2].
Qed.

Lemma ensure_valid_token_locked_rel (c : Client) (w : World) :
  let r := ensure_valid_token_locked API_ENDPOINTS c w in
  R c w (client_after r) (world_after r).
Proof.
  intros r. subst r. unfold ensure_valid_token_locked, bind.
  rewrite refresh_needed_run.
  destruct (result_of (token_check c w)) as [[] | ex]; try apply R_tick.
  destruct (negb (truthy_str (email c)) || negb (truthy_str (password c)));
    [apply R_tick |].
  eapply R_trans; [apply R_tick | apply refresh_request_rel].
Qed.

Lemma ensure_valid_token_rel (c : Client) (w : World) :
  let r := _ensure_valid_token API_ENDPOINTS c w in
  R c w (client_after r) (world_after r).
Proof.
  intros r. subst r. rewrite ensure_valid_token_run.
  destruct (result_of (token_check c w)) as [[] | ex]; try apply R_tick.
  eapply R_trans; [apply R_tick | apply ensure_valid_token_locked_rel].
Qed.

Lemma request_with_retries_rel
    (method endpoint : string) (json_data : option (gmap string Value))
    (ia : bool) (c : Client) (w : World) :
  A c method endpoint json_data ->
  let r := _request_with_retries API_ENDPOINTS
             method endpoint json_data ia c w in
  R c w (client_after r) (world_after r).
Proof.
  apply request_with_retries_via_rel. apply ensure_valid_token_rel.
Qed.

(** [_make_authenticated_request] written out. *)
Lemma make_authenticated_request_run
    (method endpoint : string) (json_data : option (gmap string Value))
    (c : Client) (w : World) :
  _make_authenticated_request API_ENDPOINTS method endpoint json_data c w
  = if negb (truthy (token c))
       && negb (truthy_str (email c) && truthy_str (password c))
    then (Raise (APIExn APIAuthenticationError
                   "Authentication required. Call login() or signup() first."
                   None), c, w)
    else
      match _ensure_valid_token API_ENDPOINTS c w with
      | (Ok _, c1, w1) =>
          _request_with_retries API_ENDPOINTS method endpoint json_data
            false c1 w1
      | (Raise ex, c1, w1) => (Raise ex, c1, w1)
      end.
Proof.
  unfold _make_authenticated_request. unfold bind at 1, self at 1.
  destruct (negb (truthy (token c)) && _); [reflexivity |].
  unfold bind.
  by destruct (_ensure_valid_token API_ENDPOINTS c w) as [[[[] | ex] c1] w1].
Qed.

Lemma make_authenticated_request_rel
    (method endpoint : string) (json_data : option (gmap string Value))
    (c : Client) (w : World) :
  A c method endpoint json_data ->
  let r := _make_authenticated_request API_ENDPOINTS
             method endpoint json_data c w in
  R c w (client_after r) (world_after r).
Proof.
  intros HA r. subst r. rewrite make_authenticated_request_run.
  destruct (negb (truthy (token c)) && _); [apply R_refl |].
  pose proof (ensure_valid_token_rel c w) as He. cbn zeta in He.
  destruct (_ensure_valid_token API_ENDPOINTS c w) as [[[[] | ex] c1] w1];
    unfold client_after, world_after in He; cbn in He; [| exact He].
  eapply R_trans; [exact He |].
  apply request_with_retries_rel. exact (A_keeps _ _ _ _ _ _ _ He HA).
Qed.

End Relational.

(** ** Events of the elementary effects *)

Lemma events_since_same (w w' : World) :
  trace w' = trace w -> events_since w w' = [].
Proof. intros H. unfold events_since. by rewrite H, drop_all. Qed.

Lemma events_since_one (w w' : World) (ev : Event) :
  trace w' = trace w ++ [ev] -> events_since w w' = [ev].
Proof. intros H. unfold events_since. by rewrite H, drop_app_length. Qed.

Lemma requests_of_app (evs1 evs2 : list Event) :
  requests_of (evs1 ++ evs2) = requests_of evs1 ++ requests_of evs2.
Proof. unfold requests_of. apply omap_app. Qed.

Lemma own_request_settings (c c' : Client) (method endpoint : string)
    (json_data : option (gmap string Value)) (q : Request) :
  same_settings c c' ->
  own_request c method endpoint json_data q ->
  own_request c' method endpoint json_data q.
Proof.
  intros (Hb & _ & Ht & _) (Hm & Hu & Hj & Hto).
  unfold own_request. by rewrite Hb, Ht.
Qed.

Lemma credentials_json_settings (c c' : Client) :
  same_settings c c' -> credentials_json c' = credentials_json c.
Proof.
  intros (_ & _ & _ & _ & _ & He & Hp). unfold credentials_json.
  by rewrite He, Hp.
Qed.

Lemma same_settings_sym (c c' : Client) :
  same_settings c c' -> same_settings c' c.
Proof.
  unfold same_settings. intros (?&?&?&?&?&?&?). by repeat split.
Qed.

Section Extras.

Variable API_ENDPOINTS : Endpoints.

(** ** The flag of the cooldown *)

(** X1: neither [_request_with_retries] nor
    [_make_authenticated_request] ever clears [_server_error_detected]: a
    flag that is set before a call is set after it, whatever the network
    answers and however long the cooldown has been over.  Only
    [is_server_error_detected] and [reset_server_error_state] clear it. *)
Theorem executor_keeps_server_error_flag
    (method endpoint : string) (json_data : option (gmap string Value))
    (is_auth_request : bool) (c : Client) (w : World) :
  _server_error_detected c = true ->
  _server_error_detected
    (client_after (_request_with_retries API_ENDPOINTS method endpoint
                     json_data is_auth_request c w)) = true
  /\ _server_error_detected
       (client_after (_make_authenticated_request API_ENDPOINTS method
                        endpoint json_data c w)) = true.
Proof.
  intros Hd.
  set (R := fun (c : Client) (_ : World) (c' : Client) (_ : World) =>
              _server_error_detected c = true ->
              _server_error_detected c' = true).
  set (A := fun (_ : Client) (_ _ : string)
                (_ : option (gmap string Value)) => True).
  assert (H1 : forall ia,
             R c w
               (client_after (_request_with_retries API_ENDPOINTS method
                                endpoint json_data ia c w))
               (world_after (_request_with_retries API_ENDPOINTS method
                               endpoint json_data ia c w))).
  { intros ia. apply (request_with_retries_rel API_ENDPOINTS R A);
      subst R A; cbv beta; auto.
    intros c0 w0. by destruct (ensure_session_settings c0 w0)
                    as (_ & _ & _ & -> & _). }
  assert (H2 : R c w
                 (client_after (_make_authenticated_request API_ENDPOINTS
                                  method endpoint json_data c w))
                 (world_after (_make_authenticated_request API_ENDPOINTS
                                 method endpoint json_data c w))).
  { apply (make_authenticated_request_rel API_ENDPOINTS R A);
      subst R A; cbv beta; auto.
    intros c0 w0. by destruct (ensure_session_settings c0 w0)
                    as (_ & _ & _ & -> & _). }
  split; [by apply (H1 is_auth_request) | by apply H2].
Qed.

(** ** Client errors *)

(** X2: in every iteration of the loop whose request is answered with a
    status from 400 to 499 that is not a 401 of a request that is not an
    auth request, the executor raises [APIClientError] with the status
    and the message of the response, caused by the response; it changes
    nothing in the client, so neither the flag of the cooldown nor the
    token, and the world afterwards holds this one request: there is no
    retry, no sleep and no refresh. *)
Theorem client_error_not_retried
    (evt : M unit) (rest : nat) (attempt : Z) (last : option TransportError)
    (method endpoint : string) (json_data : option (gmap string Value))
    (is_auth_request : bool) (c : Client) (w : World)
    (status : Z) (message : string) :
  let w1 := world_after (cooldown_blocks is_auth_request c w) in
  let url := base_url c +:+ endpoint in
  let r := retry_loop API_ENDPOINTS evt (S rest) attempt last
             method endpoint json_data is_auth_request c w in
  result_of (cooldown_blocks is_auth_request c w) = Ok false ->
  network w (sent w) = Failure (ClientResponseError status message) ->
  400 <= status < 500 ->
  status <> 401 \/ is_auth_request = true ->
  r = (Raise (APIExn APIClientError
                ("Client error at " +:+ url +:+ ": " +:+ pretty status
                 +:+ " " +:+ message)
                (Some (ClientResponseError status message))),
       c,
       sent_request (request_args c method url json_data) w1).
Proof.
  intros w1 url r Hopen Hnet Hst Hauth. subst r.
  rewrite retry_loop_step, Hopen, Hnet. cbn zeta.
  replace ((400 <=? status) && (status <? 500)) with true by lia.
  replace ((status =? 401) && negb is_auth_request) with false; [done |].
  symmetry. apply andb_false_iff.
  destruct Hauth as [Hne | ->]; [left; lia | by right].
Qed.

(** ** No attempt allowed *)

(** X3: with [_max_retries] zero or negative the loop has no iteration:
    every call of [_request_with_retries] raises [APIError] without a
    cause, sends nothing, sleeps for nothing and does not read the clock;
    all it does is put the session in place. *)
Theorem no_attempt_no_request
    (method endpoint : string) (json_data : option (gmap string Value))
    (is_auth_request : bool) (c : Client) (w : World) :
  let r := _request_with_retries API_ENDPOINTS
             method endpoint json_data is_auth_request c w in
  _max_retries c <= 0 ->
  result_of r
  = Raise (APIExn APIError "Request failed after all retries." None)
  /\ world_after r = w
  /\ client_after r = client_after (_ensure_session c w).
Proof.
  intros r Hmax. subst r. unfold _request_with_retries.
  rewrite request_with_retries_via_run.
  replace (Z.to_nat (_max_retries c)) with 0%nat by lia.
  done.
Qed.

(** ** Where the requests go *)

Section CallShape.

Variable refresh : bool.
Variables method endpoint : string.
Variable json_data : option (gmap string Value).

Lemma requests_allowed_trans c1 w1 c2 w2 c3 w3 :
  requests_allowed API_ENDPOINTS refresh method endpoint json_data
    c1 w1 c2 w2 ->
  requests_allowed API_ENDPOINTS refresh method endpoint json_data
    c2 w2 c3 w3 ->
  requests_allowed API_ENDPOINTS refresh method endpoint json_data
    c1 w1 c3 w3.
Proof.
  intros [Hg1 H1] [Hg2 H2]. split; [eapply grows_trans; eassumption |].
  destruct Hg1 as [Hs1 He1], Hg2 as [Hs2 He2].
  rewrite (events_since_trans w1 w2 w3 He1 He2), requests_of_app.
  apply Forall_app. split; [exact H1 |].
  eapply Forall_impl; [exact H2 |].
  intros q [Hq | [Hr Hq]]; [left | right; split; [exact Hr |]].
  - by apply (own_request_settings c2 c1), Hq; apply same_settings_sym.
  - unfold refresh_login in *.
    rewrite <- (credentials_json_settings c1 c2 Hs1).
    by apply (own_request_settings c2 c1), Hq; apply same_settings_sym.
Qed.

Lemma requests_allowed_silent c w c' w' :
  grows c w c' w' -> trace w' = trace w ->
  requests_allowed API_ENDPOINTS refresh method endpoint json_data
    c w c' w'.
Proof.
  intros Hg Ht. split; [exact Hg |].
  rewrite (events_since_same w w' Ht). constructor.
Qed.

Lemma requests_allowed_sent c w c' w'
    (m ep : string) (j : option (gmap string Value)) :
  call_allowed API_ENDPOINTS refresh method endpoint json_data c m ep j ->
  grows c w c' w' ->
  trace w'
  = trace w ++ [EvRequest (request_args c m (base_url c +:+ ep) j)] ->
  requests_allowed API_ENDPOINTS refresh method endpoint json_data
    c w c' w'.
Proof.
  intros HA Hg Ht. split; [exact Hg |].
  rewrite (events_since_one w w' _ Ht). cbn. constructor; [| constructor].
  destruct HA as [(-> & -> & ->) | (Hr & -> & -> & ->)]; [left | right];
    done.
Qed.

Lemma requests_allowed_refl c w :
  requests_allowed API_ENDPOINTS refresh method endpoint json_data c w c w.
Proof. by apply requests_allowed_silent; [apply grows_refl |]. Qed.

Lemma requests_allowed_tick c w :
  requests_allowed API_ENDPOINTS refresh method endpoint json_data
    c w c (tick w).
Proof.
  by apply requests_allowed_silent; [apply grows_world, extends_tick |].
Qed.

Lemma requests_allowed_slept c w s :
  requests_allowed API_ENDPOINTS refresh method endpoint json_data
    c w c (slept s w).
Proof.
  split; [apply grows_world, extends_slept |].
  unfold events_since. cbn. rewrite drop_app_length. constructor.
Qed.

Lemma requests_allowed_session c w :
  requests_allowed API_ENDPOINTS refresh method endpoint json_data
    c w (client_after (_ensure_session c w)) w.
Proof.
  apply requests_allowed_silent; [| done].
  apply grows_client, ensure_session_settings.
Qed.

Lemma requests_allowed_send c w m ep j :
  call_allowed API_ENDPOINTS refresh method endpoint json_data c m ep j ->
  requests_allowed API_ENDPOINTS refresh method endpoint json_data
    c w c (sent_request (request_args c m (base_url c +:+ ep) j) w).
Proof.
  intros HA.
  by apply (requests_allowed_sent _ _ _ _ m ep j);
    [| apply grows_world, extends_sent_request |].
Qed.

Lemma requests_allowed_install c w m ep j (d : gmap string Value) now :
  call_allowed API_ENDPOINTS refresh method endpoint json_data c m ep j ->
  ep = ep_login API_ENDPOINTS \/ ep = ep_signup API_ENDPOINTS ->
  network w (sent w) = Response (VDict d) ->
  requests_allowed API_ENDPOINTS refresh method endpoint json_data c w
    (set_token_expiry (default (VInt (now + 5400)) (d !! "valid_thru"))
       (set_token (default VNone (d !! "access_token")) c))
    (tick (sent_request (request_args c m (base_url c +:+ ep) j) w)).
Proof.
  intros HA _ _.
  apply (requests_allowed_sent _ _ _ _ m ep j); [done | | done].
  split; [by repeat split |].
  eapply extends_trans; [apply extends_sent_request | apply extends_tick].
Qed.

Lemma requests_allowed_trip c w m ep j (status : Z) (message : string) now :
  call_allowed API_ENDPOINTS refresh method endpoint json_data c m ep j ->
  network w (sent w) = Failure (ClientResponseError status message) ->
  (400 <=? status) && (status <? 500) = false ->
  requests_allowed API_ENDPOINTS refresh method endpoint json_data c w
    (set_server_error_timestamp now (set_server_error_detected true c))
    (tick (sent_request (request_args c m (base_url c +:+ ep) j) w)).
Proof.
  intros HA _ _.
  apply (requests_allowed_sent _ _ _ _ m ep j); [done | | done].
  split; [by repeat split |].
  eapply extends_trans; [apply extends_sent_request | apply extends_tick].
Qed.

Lemma call_allowed_keeps c w c' w' m ep j :
  requests_allowed API_ENDPOINTS refresh method endpoint json_data
    c w c' w' ->
  call_allowed API_ENDPOINTS refresh method endpoint json_data c m ep j ->
  call_allowed API_ENDPOINTS refresh method endpoint json_data c' m ep j.
Proof.
  intros [[Hs _] _] [HA | (Hr & -> & -> & ->)]; [by left | right].
  by rewrite (credentials_json_settings c c' Hs).
Qed.

End CallShape.

(** X4: every request a call of [_request_with_retries] or of
    [_make_authenticated_request] sends is either the call's own, with the
    method and the JSON body given, to the endpoint under [base_url] and
    with the timeout of the client, or the login request of a token
    refresh, a POST of the stored credentials to the login endpoint; no
    request goes anywhere else.  An auth request sends only its own
    requests. *)
Theorem requests_own_or_refresh
    (method endpoint : string) (json_data : option (gmap string Value))
    (is_auth_request : bool) (c : Client) (w : World) :
  let r := _request_with_retries API_ENDPOINTS
             method endpoint json_data is_auth_request c w in
  let r' := _make_authenticated_request API_ENDPOINTS
              method endpoint json_data c w in
  Forall (fun q => own_request c method endpoint json_data q
                   \/ refresh_login API_ENDPOINTS c q)
    (requests_of (events_since w (world_after r)))
  /\ Forall (fun q => own_request c method endpoint json_data q
                      \/ refresh_login API_ENDPOINTS c q)
       (requests_of (events_since w (world_after r')))
  /\ (is_auth_request = true ->
      Forall (own_request c method endpoint json_data)
        (requests_of (events_since w (world_after r)))).
Proof.
  intros r r'. subst r r'.
  assert (Hweak : forall evs,
            Forall (fun q => own_request c method endpoint json_data q
                             \/ (true = true
                                 /\ refresh_login API_ENDPOINTS c q)) evs ->
            Forall (fun q => own_request c method endpoint json_data q
                             \/ refresh_login API_ENDPOINTS c q) evs).
  { intros evs H. eapply Forall_impl; [exact H |].
    intros q [Hq | [_ Hq]]; auto. }
  split; [| split].
  - apply Hweak.
    apply (request_with_retries_rel API_ENDPOINTS
             (requests_allowed API_ENDPOINTS true method endpoint json_data)
             (call_allowed API_ENDPOINTS true method endpoint json_data)
             (requests_allowed_refl _ _ _ _)
             (requests_allowed_trans _ _ _ _)
             (requests_allowed_tick _ _ _ _)
             (requests_allowed_slept _ _ _ _)
             (requests_allowed_session _ _ _ _)
             (requests_allowed_send _ _ _ _)
             (requests_allowed_install _ _ _ _)
             (requests_allowed_trip _ _ _ _)
             (call_allowed_keeps _ _ _ _)).
    + intros c0. by right.
    + by left.
  - apply Hweak.
    apply (make_authenticated_request_rel API_ENDPOINTS
             (requests_allowed API_ENDPOINTS true method endpoint json_data)
             (call_allowed API_ENDPOINTS true method endpoint json_data)
             (requests_allowed_refl _ _ _ _)
             (requests_allowed_trans _ _ _ _)
             (requests_allowed_tick _ _ _ _)
             (requests_allowed_slept _ _ _ _)
             (requests_allowed_session _ _ _ _)
             (requests_allowed_send _ _ _ _)
             (requests_allowed_install _ _ _ _)
             (requests_allowed_trip _ _ _ _)
             (call_allowed_keeps _ _ _ _)).
    + intros c0. by right.
    + by left.
  - intros ->. unfold _request_with_retries.
    rewrite request_with_retries_via_run.
    rewrite (retry_loop_auth_callback API_ENDPOINTS _ (ret tt)).
    rewrite <- request_with_retries_via_run.
    pose proof (request_with_retries_via_rel API_ENDPOINTS
             (requests_allowed API_ENDPOINTS false method endpoint json_data)
             (call_allowed API_ENDPOINTS false method endpoint json_data)
             (requests_allowed_refl _ _ _ _)
             (requests_allowed_trans _ _ _ _)
             (requests_allowed_tick _ _ _ _)
             (requests_allowed_slept _ _ _ _)
             (requests_allowed_session _ _ _ _)
             (requests_allowed_send _ _ _ _)
             (requests_allowed_install _ _ _ _)
             (requests_allowed_trip _ _ _ _)
             (call_allowed_keeps _ _ _ _)
             (ret tt) (requests_allowed_refl _ _ _ _)
             method endpoint json_data true c w
             (or_introl (conj eq_refl (conj eq_refl eq_refl)))) as [_ H].
    eapply Forall_impl; [exact H |]. by intros q [Hq | [? _]].
Qed.

(** ** When the token changes *)

Lemma token_kept_same c w c' w' :
  grows c w c' w' ->
  token c' = token c -> token_expiry c' = token_expiry c ->
  token_kept API_ENDPOINTS c w c' w'.
Proof. intros Hg Ht He. by split. Qed.

Lemma token_kept_trans c1 w1 c2 w2 c3 w3 :
  token_kept API_ENDPOINTS c1 w1 c2 w2 ->
  token_kept API_ENDPOINTS c2 w2 c3 w3 ->
  token_kept API_ENDPOINTS c1 w1 c3 w3.
Proof.
  intros [Hg1 H1] [Hg2 H2]. split; [eapply grows_trans; eassumption |].
  destruct Hg1 as [Hs1 He1], Hg2 as [Hs2 He2].
  rewrite (events_since_trans w1 w2 w3 He1 He2), requests_of_app.
  intros [Ha Hb]%Forall_app.
  destruct (H1 Ha) as [Ht1 Hx1].
  destruct H2 as [Ht2 Hx2].
  { eapply Forall_impl; [exact Hb |]. intros q Hq.
    unfold to_token_endpoint in *. destruct Hs1 as (-> & _). exact Hq. }
  split; congruence.
Qed.

Lemma token_kept_install c w m ep j (d : gmap string Value) now :
  ep = ep_login API_ENDPOINTS \/ ep = ep_signup API_ENDPOINTS ->
  token_kept API_ENDPOINTS c w
    (set_token_expiry (default (VInt (now + 5400)) (d !! "valid_thru"))
       (set_token (default VNone (d !! "access_token")) c))
    (tick (sent_request (request_args c m (base_url c +:+ ep) j) w)).
Proof.
  intros Hep. split.
  { split; [by repeat split |].
    eapply extends_trans; [apply extends_sent_request | apply extends_tick]. }
  unfold events_since. cbn [trace tick sent_request].
  rewrite drop_app_length. cbn. intros [Hno _]%Forall_cons.
  exfalso. apply Hno. unfold to_token_endpoint. cbn.
  destruct Hep as [-> | ->]; auto.
Qed.

(** X5: the token changes only through a request to the login or the
    signup URL: a call of [_request_with_retries] or of
    [_make_authenticated_request] none of whose requests went to one of
    these two URLs has left [token] and [token_expiry] as they were,
    whatever the answers were. *)
Theorem token_changes_only_by_login
    (method endpoint : string) (json_data : option (gmap string Value))
    (is_auth_request : bool) (c : Client) (w : World) :
  let r := _request_with_retries API_ENDPOINTS
             method endpoint json_data is_auth_request c w in
  let r' := _make_authenticated_request API_ENDPOINTS
              method endpoint json_data c w in
  (Forall (fun q => ~ to_token_endpoint API_ENDPOINTS c q)
     (requests_of (events_since w (world_after r))) ->
   token (client_after r) = token c
   /\ token_expiry (client_after r) = token_expiry c)
  /\ (Forall (fun q => ~ to_token_endpoint API_ENDPOINTS c q)
        (requests_of (events_since w (world_after r'))) ->
      token (client_after r') = token c
      /\ token_expiry (client_after r') = token_expiry c).
Proof.
  intros r r'. subst r r'.
  set (A := fun (_ : Client) (_ _ : string)
                (_ : option (gmap string Value)) => True).
  assert (Hsession : forall c w,
            token_kept API_ENDPOINTS c w
              (client_after (_ensure_session c w)) w).
  { intros c0 w0. destruct (ensure_session_settings c0 w0) as (Hs & Ht & He & _).
    apply token_kept_same; [by apply grows_client | done | done]. }
  split.
  - apply (request_with_retries_rel API_ENDPOINTS
             (token_kept API_ENDPOINTS) A); subst A; cbv beta; auto.
    + intros c0 w0. by apply token_kept_same; [apply grows_refl | |].
    + apply token_kept_trans.
    + intros c0 w0.
      by apply token_kept_same; [apply grows_world, extends_tick | |].
    + intros c0 w0 s.
      by apply token_kept_same; [apply grows_world, extends_slept | |].
    + intros c0 w0 m ep j _.
      by apply token_kept_same;
        [apply grows_world, extends_sent_request | |].
    + intros c0 w0 m ep j d now _ Hep _. by apply token_kept_install.
    + intros c0 w0 m ep j status message now _ _ _.
      apply token_kept_same; [| done | done].
      split; [by repeat split |].
      eapply extends_trans; [apply extends_sent_request | apply extends_tick].
  - apply (make_authenticated_request_rel API_ENDPOINTS
             (token_kept API_ENDPOINTS) A); subst A; cbv beta; auto.
    + intros c0 w0. by apply token_kept_same; [apply grows_refl | |].
    + apply token_kept_trans.
    + intros c0 w0.
      by apply token_kept_same; [apply grows_world, extends_tick | |].
    + intros c0 w0 s.
      by apply token_kept_same; [apply grows_world, extends_slept | |].
    + intros c0 w0 m ep j _.
      by apply token_kept_same;
        [apply grows_world, extends_sent_request | |].
    + intros c0 w0 m ep j d now _ Hep _. by apply token_kept_install.
    + intros c0 w0 m ep j status message now _ _ _.
      apply token_kept_same; [| done | done].
      split; [by repeat split |].
      eapply extends_trans; [apply extends_sent_request | apply extends_tick].
Qed.

(** ** How many requests a call sends *)

Lemma retry_loop_sent_bound (evt : M unit) (limit : Z) (K : nat) :
  (forall c w, _max_retries c = limit ->
     grows c w (client_after (evt c w)) (world_after (evt c w))
     /\ (sent (world_after (evt c w)) <= sent w + K)%nat) ->
  forall (remaining : nat) (attempt : Z) (last : option TransportError)
         (method endpoint : string)
         (json_data : option (gmap string Value)) (ia : bool)
         (c : Client) (w : World),
    _max_retries c = limit ->
    (sent (world_after (retry_loop API_ENDPOINTS evt remaining attempt last
                          method endpoint json_data ia c w))
     <= sent w + remaining * (1 + K))%nat.
Proof.
  intros Hevt. induction remaining as [| rest IH];
    intros attempt last method endpoint json_data ia c w Hmax.
  - cbn. lia.
  - rewrite retry_loop_step. cbn zeta.
    destruct (cooldown_blocks_world ia c w) as (_ & _ & Hs1 & _).
    set (w1 := world_after (cooldown_blocks ia c w)) in *.
    destruct (result_of (cooldown_blocks ia c w)) as [[] | ex];
      [cbn; lia | | cbn; lia].
    destruct (network w (sent w)) as [result | [status message | | ]].
    + destruct (_ || _); [| cbn; lia].
      destruct result; cbn; lia.
    + destruct ((400 <=? status) && (status <? 500)); [| cbn; lia].
      destruct ((status =? 401) && negb ia); [| cbn; lia].
      destruct (Hevt c (sent_request
                          (request_args c method (base_url c +:+ endpoint)
                             json_data) w1) Hmax) as [[Hset _] Hk].
      destruct (evt c _) as [[[[] | ex] c3] w3];
        unfold client_after, world_after in Hset, Hk; cbn in Hset, Hk.
      * destruct Hset as (_ & Hm3 & _).
        specialize (IH (attempt + 1) (Some (ClientResponseError status message))
                      method endpoint json_data ia c3 w3
                      ltac:(congruence)).
        unfold world_after in *. lia.
      * destruct (is_APIAuthenticationError ex); cbn; lia.
    + destruct (attempt <? _max_retries c - 1); [| cbn; lia].
      specialize (IH (attempt + 1) (Some ClientConnectionError)
                    method endpoint json_data ia c
                    (slept (1 * 2 ^ attempt)
                       (sent_request
                          (request_args c method (base_url c +:+ endpoint)
                             json_data) w1)) Hmax).
      cbn in IH. lia.
    + destruct (attempt <? _max_retries c - 1); [| cbn; lia].
      specialize (IH (attempt + 1) (Some ClientTimeout)
                    method endpoint json_data ia c
                    (slept (1 * 2 ^ attempt)
                       (sent_request
                          (request_args c method (base_url c +:+ endpoint)
                             json_data) w1)) Hmax).
      cbn in IH. lia.
Qed.

Lemma request_with_retries_via_sent_bound (evt : M unit) (K : nat)
    (method endpoint : string) (json_data : option (gmap string Value))
    (ia : bool) (c : Client) (w : World) :
  (forall c' w', _max_retries c' = _max_retries c ->
     grows c' w' (client_after (evt c' w')) (world_after (evt c' w'))
     /\ (sent (world_after (evt c' w')) <= sent w' + K)%nat) ->
  (sent (world_after (request_with_retries_via API_ENDPOINTS evt
                        method endpoint json_data ia c w))
   <= sent w + Z.to_nat (_max_retries c) * (1 + K))%nat.
Proof.
  intros Hevt. rewrite request_with_retries_via_run.
  apply (retry_loop_sent_bound evt (_max_retries c) K Hevt).
  by destruct (ensure_session_settings c w) as ((_ & -> & _) & _).
Qed.

Lemma ensure_valid_token_sent_bound (c : Client) (w : World) :
  (sent (world_after (_ensure_valid_token API_ENDPOINTS c w))
   <= sent w + Z.to_nat (_max_retries c))%nat.
Proof.
  rewrite ensure_valid_token_run.
  destruct (result_of (token_check c w)) as [[] | ex]; try (cbn; lia).
  rewrite ensure_valid_token_locked_run.
  destruct (result_of (token_check c (tick w))) as [[] | ex]; try (cbn; lia).
  destruct (negb (truthy_str (email c)) || negb (truthy_str (password c)));
    [cbn; lia |].
  pose proof (request_with_retries_via_sent_bound (ret tt) 0 "POST"
                (ep_login API_ENDPOINTS)
                (Some {[ "email" := str_value (email c);
                         "password" := str_value (password c) ]})
                true c (tick (tick w))) as Hb.
  destruct (request_with_retries_via _ _ _ _ _ _ _ _) as [[[v | ex] c2] w2];
    unfold world_after in *; cbn in *;
    (etrans; [apply Hb |]; [| lia]);
    intros c' w' _; (split; [apply grows_refl | cbn; lia]).
Qed.

(** X6: a call of [_request_with_retries] with [_max_retries] = n sends
    at most n requests when it is an auth request and at most n * (1 + n)
    otherwise, each of its n attempts being able to bring a refresh of at
    most n login requests; [_ensure_valid_token] sends at most n. *)
Theorem request_count_bounded
    (method endpoint : string) (json_data : option (gmap string Value))
    (is_auth_request : bool) (c : Client) (w : World) :
  let n := Z.to_nat (_max_retries c) in
  let r := _request_with_retries API_ENDPOINTS
             method endpoint json_data is_auth_request c w in
  (length (requests_of (events_since w (world_after r))) <= n * (1 + n))%nat
  /\ (is_auth_request = true ->
      (length (requests_of (events_since w (world_after r))) <= n)%nat)
  /\ (length (requests_of
                (events_since w
                   (world_after (_ensure_valid_token API_ENDPOINTS c w))))
      <= n)%nat.
Proof.
  intros n r. subst n r.
  destruct (request_with_retries_grows API_ENDPOINTS method endpoint
              json_data is_auth_request c w) as [_ Hext].
  destruct (extends_events _ _ Hext) as [_ Hsent].
  destruct (ensure_valid_token_grows API_ENDPOINTS c w) as [_ Hext'].
  destruct (extends_events _ _ Hext') as [_ Hsent'].
  pose proof (ensure_valid_token_sent_bound c w) as Hb'.
  split; [| split]; [| | lia].
  - pose proof (request_with_retries_via_sent_bound
                  (_ensure_valid_token API_ENDPOINTS)
                  (Z.to_nat (_max_retries c)) method endpoint json_data
                  is_auth_request c w) as Hb.
    unfold _request_with_retries in *.
    assert (sent (world_after
                    (request_with_retries_via API_ENDPOINTS
                       (_ensure_valid_token API_ENDPOINTS) method endpoint
                       json_data is_auth_request c w))
            <= sent w + Z.to_nat (_max_retries c)
                        * (1 + Z.to_nat (_max_retries c)))%nat; [| lia].
    apply Hb. intros c' w' Hm.
    split; [apply ensure_valid_token_grows |].
    rewrite <- Hm. apply ensure_valid_token_sent_bound.
  - intros ->. unfold _request_with_retries in *.
    rewrite request_with_retries_via_run in *.
    rewrite (retry_loop_auth_callback API_ENDPOINTS _ (ret tt)) in *.
    pose proof (retry_loop_sent_bound (ret tt) (_max_retries c) 0) as Hb.
    specialize (Hb ltac:(intros c' w' _; split; [apply grows_refl | cbn; lia])
                  (Z.to_nat (_max_retries c)) 0 None method endpoint
                  json_data true (client_after (_ensure_session c w)) w).
    destruct (ensure_session_settings c w) as ((_ & Hm & _) & _).
    specialize (Hb Hm). lia.
Qed.

(** ** The cooldown between calls *)

Lemma cooldown_blocks_session (ia : bool) (c : Client) (w : World) :
  result_of (cooldown_blocks ia (client_after (_ensure_session c w)) w)
  = result_of (cooldown_blocks ia c w)
  /\ world_after (cooldown_blocks ia (client_after (_ensure_session c w)) w)
     = world_after (cooldown_blocks ia c w).
Proof.
  rewrite !cooldown_blocks_run.
  destruct (ensure_session_settings c w)
    as ((_ & _ & _ & -> & _) & _ & _ & -> & ->).
  done.
Qed.

(** A call that the cooldown holds back. *)
Lemma blocked_call (method endpoint : string)
    (json_data : option (gmap string Value)) (c : Client) (w : World) :
  let r := _request_with_retries API_ENDPOINTS
             method endpoint json_data false c w in
  1 <= _max_retries c ->
  _server_error_detected c = true ->
  clock w (ticks w) < _server_error_timestamp c + _server_error_cooldown c ->
  result_of r
  = Raise (APIExn APIServerError
             ("API server error detected. Avoiding requests for "
              +:+ pretty (_server_error_timestamp c
                          + _server_error_cooldown c
                          - clock w (S (ticks w)))
              +:+ " more seconds.") None)
  /\ trace (world_after r) = trace w
  /\ sent (world_after r) = sent w.
Proof.
  intros r Hmax Hdet Hnow. subst r.
  unfold _request_with_retries. rewrite request_with_retries_via_run.
  destruct (ensure_session_settings c w)
    as ((_ & _ & _ & Hcd & _) & _ & _ & Hd1 & Ht1).
  set (c1 := client_after (_ensure_session c w)) in *.
  destruct (Z.to_nat (_max_retries c)) as [| rest] eqn:Hn; [lia |].
  rewrite retry_loop_step, cooldown_blocks_run.
  unfold result_of, world_after. cbn [fst snd].
  rewrite Hd1, Hdet, Ht1, Hcd. cbn.
  replace (_ <=? _) with false by lia. done.
Qed.

(** A call that the cooldown lets through starts with its request. *)
Lemma open_call_sends (method endpoint : string)
    (json_data : option (gmap string Value)) (ia : bool)
    (c : Client) (w : World) :
  1 <= _max_retries c ->
  result_of (cooldown_blocks ia c w) = Ok false ->
  exists evs : list Event,
    trace (world_after (_request_with_retries API_ENDPOINTS
                          method endpoint json_data ia c w))
    = trace w
      ++ EvRequest (request_args c method (base_url c +:+ endpoint)
                      json_data) :: evs.
Proof.
  intros Hmax Hopen.
  unfold _request_with_retries. rewrite request_with_retries_via_run.
  destruct (ensure_session_settings c w) as ((Hbase & _) & _).
  pose proof (request_args_session c w) as Hargs.
  destruct (cooldown_blocks_session ia c w) as [Hres Hw1].
  set (c1 := client_after (_ensure_session c w)) in *.
  destruct (Z.to_nat (_max_retries c)) as [| rest] eqn:Hn; [lia |].
  rewrite <- Hres in Hopen.
  pose proof (retry_loop_sends_first API_ENDPOINTS
                (_ensure_valid_token API_ENDPOINTS) rest 0 None method
                endpoint json_data ia c1 w
                (ensure_valid_token_grows API_ENDPOINTS) Hopen)
    as (_ & _ & evs & Htr & _).
  destruct (cooldown_blocks_world ia c1 w) as (_ & _ & _ & Htr1).
  cbn [trace sent_request] in Htr. rewrite Htr1, Hbase, Hargs in Htr.
  exists evs. rewrite Htr. by rewrite <- app_assoc.
Qed.

(** X7: after an iteration that was answered with a status of 500 or
    more at the clock reading [tripped_at], every later call that is not
    an auth request, in whatever world, is refused without sending as
    long as the clock reads less than [tripped_at] plus the cooldown,
    with the remaining seconds in the message; once the clock reads that
    much or more, the call starts with its request again. *)
Theorem server_error_then_cooldown
    (evt : M unit) (rest : nat) (attempt : Z) (last : option TransportError)
    (method endpoint : string) (json_data : option (gmap string Value))
    (is_auth_request : bool) (c : Client) (w : World)
    (status : Z) (message : string)
    (method2 endpoint2 : string) (json_data2 : option (gmap string Value))
    (w2 : World) :
  let tripped_at :=
    clock w (ticks (world_after (cooldown_blocks is_auth_request c w))) in
  let c1 := client_after
              (retry_loop API_ENDPOINTS evt (S rest) attempt last
                 method endpoint json_data is_auth_request c w) in
  let r2 := _request_with_retries API_ENDPOINTS
              method2 endpoint2 json_data2 false c1 w2 in
  result_of (cooldown_blocks is_auth_request c w) = Ok false ->
  network w (sent w) = Failure (ClientResponseError status message) ->
  500 <= status ->
  1 <= _max_retries c ->
  (clock w2 (ticks w2) < tripped_at + _server_error_cooldown c ->
   result_of r2
   = Raise (APIExn APIServerError
              ("API server error detected. Avoiding requests for "
               +:+ pretty (tripped_at + _server_error_cooldown c
                           - clock w2 (S (ticks w2)))
               +:+ " more seconds.") None)
   /\ trace (world_after r2) = trace w2)
  /\ (tripped_at + _server_error_cooldown c <= clock w2 (ticks w2) ->
      exists evs : list Event,
        trace (world_after r2)
        = trace w2
          ++ EvRequest (request_args c method2 (base_url c +:+ endpoint2)
                          json_data2) :: evs).
Proof.
  intros tripped_at c1 r2 Hopen Hnet Hst Hmax.
  assert (Hc1 : c1 = set_server_error_timestamp tripped_at
                       (set_server_error_detected true c)).
  { subst c1. rewrite retry_loop_step, Hopen, Hnet. cbn zeta.
    replace ((400 <=? status) && (status <? 500)) with false by lia.
    done. }
  clearbody c1. subst c1. subst r2. split.
  - intros Hnow.
    destruct (blocked_call method2 endpoint2 json_data2
                (set_server_error_timestamp tripped_at
                   (set_server_error_detected true c)) w2)
      as (Hres & Htr & _); try done.
  - intros Hnow.
    apply (open_call_sends method2 endpoint2 json_data2 false
             (set_server_error_timestamp tripped_at
                (set_server_error_detected true c)) w2 Hmax).
    rewrite cooldown_blocks_run. unfold result_of. cbn.
    replace (_ <=? _) with true by lia. done.
Qed.

(** X8: [reset_server_error_state] clears the flag and the timestamp and
    touches nothing else; after it [is_server_error_detected] answers
    [False] without reading the clock, and every call with at least one
    attempt allowed starts with its request, also when the cooldown of
    the state before had not elapsed. *)
Theorem reset_permits_requests (c : Client) (w : World) :
  let c1 := client_after (reset_server_error_state c w) in
  1 <= _max_retries c ->
  reset_server_error_state c w = (Ok tt, c1, w)
  /\ _server_error_detected c1 = false
  /\ _server_error_timestamp c1 = 0
  /\ same_settings c c1
  /\ token c1 = token c /\ token_expiry c1 = token_expiry c
  /\ session c1 = session c
  /\ (forall w2 : World, is_server_error_detected c1 w2 = (Ok false, c1, w2))
  /\ forall (method endpoint : string)
            (json_data : option (gmap string Value))
            (is_auth_request : bool) (w2 : World),
       exists evs : list Event,
         trace (world_after
                  (_request_with_retries API_ENDPOINTS method endpoint
                     json_data is_auth_request c1 w2))
         = trace w2
           ++ EvRequest (request_args c method (base_url c +:+ endpoint)
                           json_data) :: evs.
Proof.
  intros c1 Hmax. subst c1.
  assert (Hr : reset_server_error_state c w
               = (Ok tt,
                  set_server_error_timestamp 0
                    (set_server_error_detected false c), w)) by reflexivity.
  rewrite Hr. unfold client_after. cbn [fst snd].
  repeat split; try done.
  intros method endpoint json_data ia w2.
  apply (open_call_sends method endpoint json_data ia
           (set_server_error_timestamp 0
              (set_server_error_detected false c)) w2 Hmax).
  by rewrite cooldown_blocks_run.
Qed.

(** ** Authenticated requests *)

Lemma ensure_session_open (c : Client) (w : World) :
  session_open (client_after (_ensure_session c w)) = true
  /\ (session_open c = true -> _ensure_session c w = (Ok tt, c, w)).
Proof.
  unfold session_open. run_step.
  destruct (session c) as [[rfs []] |] eqn:Hs; cbn; rewrite ?Hs; by split.
Qed.

(** An iteration answered with a body on an endpoint that is neither the
    login nor the signup endpoint. *)
Lemma retry_loop_returns_body (evt : M unit) (rest : nat) (attempt : Z)
    (last : option TransportError) (method endpoint : string)
    (json_data : option (gmap string Value)) (ia : bool)
    (c : Client) (w : World) (res : Value) :
  result_of (cooldown_blocks ia c w) = Ok false ->
  network w (sent w) = Response res ->
  endpoint <> ep_login API_ENDPOINTS ->
  endpoint <> ep_signup API_ENDPOINTS ->
  retry_loop API_ENDPOINTS evt (S rest) attempt last
    method endpoint json_data ia c w
  = (Ok res, c,
     sent_request (request_args c method (base_url c +:+ endpoint) json_data)
       (world_after (cooldown_blocks ia c w))).
Proof.
  intros Hopen Hnet Hl Hs. rewrite retry_loop_step, Hopen, Hnet. cbn zeta.
  by rewrite !bool_decide_eq_false_2.
Qed.

(** An iteration answered with a JSON object on the login or the signup
    endpoint. *)
Lemma retry_loop_installs (evt : M unit) (rest : nat) (attempt : Z)
    (last : option TransportError) (method endpoint : string)
    (json_data : option (gmap string Value)) (ia : bool)
    (c : Client) (w : World) (d : gmap string Value) :
  result_of (cooldown_blocks ia c w) = Ok false ->
  network w (sent w) = Response (VDict d) ->
  endpoint = ep_login API_ENDPOINTS \/ endpoint = ep_signup API_ENDPOINTS ->
  retry_loop API_ENDPOINTS evt (S rest) attempt last
    method endpoint json_data ia c w
  = (Ok (VDict d),
     set_token_expiry
       (default (VInt (clock w (ticks (world_after (cooldown_blocks ia c w)))
                       + 5400))
          (d !! "valid_thru"))
       (set_token (default VNone (d !! "access_token")) c),
     tick (sent_request
             (request_args c method (base_url c +:+ endpoint) json_data)
             (world_after (cooldown_blocks ia c w)))).
Proof.
  intros Hopen Hnet Hep. rewrite retry_loop_step, Hopen, Hnet. cbn zeta.
  replace (bool_decide (endpoint = ep_login API_ENDPOINTS)
           || bool_decide (endpoint = ep_signup API_ENDPOINTS)) with true;
    [done |].
  symmetry. apply orb_true_iff.
  destruct Hep; [left | right]; by apply bool_decide_eq_true.
Qed.

(** X9: without complete credentials [_make_authenticated_request]
    refuses to go to the network unless it holds a token that passes the
    test.  With no token it raises [APIAuthenticationError] at once: the
    clock is not read and not even the session is created.  With a token
    that the test finds expiring before and under the lock, it raises
    [APIAuthenticationError] from [_ensure_valid_token].  In both cases
    nothing is sent and the client is left as it was. *)
Theorem request_refused_without_credentials
    (method endpoint : string) (json_data : option (gmap string Value))
    (c : Client) (w : World) :
  let r := _make_authenticated_request API_ENDPOINTS
             method endpoint json_data c w in
  truthy_str (email c) = false \/ truthy_str (password c) = false ->
  (truthy (token c) = false ->
   r = (Raise (APIExn APIAuthenticationError
                 "Authentication required. Call login() or signup() first."
                 None), c, w))
  /\ (truthy (token c) = true ->
      result_of (token_check c w) = Ok true ->
      result_of (token_check c (tick w)) = Ok true ->
      r = (Raise (APIExn APIAuthenticationError
                    "Token expired, but credentials are not set for refresh. Call login() first."
                    None), c, tick (tick w))).
Proof.
  intros r Hcred. subst r. rewrite make_authenticated_request_run.
  assert (Hc : truthy_str (email c) && truthy_str (password c) = false).
  { apply andb_false_iff. exact Hcred. }
  assert (Hc' : negb (truthy_str (email c)) || negb (truthy_str (password c))
                = true).
  { apply orb_true_iff. destruct Hcred as [-> | ->]; auto. }
  split.
  - intros Ht. by rewrite Ht, Hc.
  - intros Ht H1 H2. rewrite Ht. cbn [negb andb].
    rewrite ensure_valid_token_run, H1, ensure_valid_token_locked_run, H2.
    by rewrite Hc'.
Qed.

(** X10: with a token that passes the test and no cooldown in the way,
    an authenticated request that is answered with a body sends exactly
    one request: no login request is made, the request carries
    [Authorization: Bearer] with the token held, the body is returned and
    the token and its expiry stay as they were. *)
Theorem fresh_token_single_request
    (method endpoint : string) (json_data : option (gmap string Value))
    (c : Client) (w : World) (res : Value) :
  let r := _make_authenticated_request API_ENDPOINTS
             method endpoint json_data c w in
  let req := request_args c method (base_url c +:+ endpoint) json_data in
  truthy (token c) = true ->
  result_of (token_check c w) = Ok false ->
  result_of (cooldown_blocks false c (tick w)) = Ok false ->
  1 <= _max_retries c ->
  network w (sent w) = Response res ->
  endpoint <> ep_login API_ENDPOINTS ->
  endpoint <> ep_signup API_ENDPOINTS ->
  result_of r = Ok res
  /\ events_since w (world_after r) = [EvRequest req]
  /\ req_headers req !! "Authorization" = Some (HBearer (token c))
  /\ token (client_after r) = token c
  /\ token_expiry (client_after r) = token_expiry c.
Proof.
  intros r req Htok Hfresh Hopen Hmax Hnet Hl Hs. subst r req.
  rewrite make_authenticated_request_run, Htok. cbn [negb andb].
  rewrite ensure_valid_token_run, Hfresh.
  unfold _request_with_retries. rewrite request_with_retries_via_run.
  destruct (ensure_session_settings c (tick w))
    as ((Hbase & _) & Ht & He & _).
  pose proof (request_args_session c (tick w)) as Hargs.
  destruct (cooldown_blocks_session false c (tick w)) as [Hres Hw1].
  set (c1 := client_after (_ensure_session c (tick w))) in *.
  destruct (Z.to_nat (_max_retries c)) as [| rest] eqn:Hn; [lia |].
  rewrite (retry_loop_returns_body _ rest 0 None method endpoint json_data
             false c1 (tick w) res); try done; [| by rewrite Hres].
  destruct (cooldown_blocks_world false c1 (tick w)) as (_ & _ & _ & Htr).
  set (w1 := world_after (cooldown_blocks false c1 (tick w))) in *.
  unfold result_of, client_after, world_after. cbn [fst snd].
  rewrite Hbase, Hargs.
  split; [done |]. split.
  { apply events_since_one. cbn [trace sent_request]. by rewrite Htr. }
  split; [| done].
  unfold request_args, _get_headers. cbn [req_headers]. rewrite Htok.
  apply lookup_insert_eq.
Qed.

(** The refresh of a client without a token whose login request is
    answered at once with a JSON object. *)
Lemma ensure_valid_token_logs_in (c : Client) (w : World)
    (d : gmap string Value) :
  truthy (token c) = false ->
  truthy_str (email c) = true ->
  truthy_str (password c) = true ->
  1 <= _max_retries c ->
  _server_error_detected c = false ->
  network w (sent w) = Response (VDict d) ->
  exists (c2 : Client) (w2 : World),
    _ensure_valid_token API_ENDPOINTS c w = (Ok tt, c2, w2)
    /\ token c2 = default VNone (d !! "access_token")
    /\ same_settings c c2
    /\ _server_error_detected c2 = false
    /\ session_open c2 = true
    /\ clock w2 = clock w /\ network w2 = network w
    /\ sent w2 = S (sent w)
    /\ trace w2 = trace w ++ [EvRequest (login_request API_ENDPOINTS c)].
Proof.
  intros Htok Hemail Hpassword Hmax Hdet Hnet.
  assert (Hstale : forall w0, result_of (token_check c w0) = Ok true).
  { intros w0. run_step. by rewrite Htok. }
  rewrite ensure_valid_token_run, Hstale.
  rewrite ensure_valid_token_locked_run, Hstale.
  rewrite Hemail, Hpassword. cbn [negb orb].
  rewrite request_with_retries_via_run.
  destruct (ensure_session_settings c (tick (tick w)))
    as (Hset & _ & _ & Hd1 & _).
  pose proof (request_args_session c (tick (tick w))) as Hargs.
  destruct (ensure_session_open c (tick (tick w))) as [Hopen1 _].
  set (c1 := client_after (_ensure_session c (tick (tick w)))) in *.
  destruct (Z.to_nat (_max_retries c)) as [| rest] eqn:Hn; [lia |].
  rewrite (retry_loop_installs (ret tt) rest 0 None "POST"
             (ep_login API_ENDPOINTS) _ true c1 (tick (tick w)) d
             (cooldown_blocks_auth _ _) Hnet (or_introl eq_refl)).
  rewrite cooldown_blocks_run, Hd1, Hdet. unfold world_after. cbn [snd].
  do 2 eexists. split; [reflexivity |].
  destruct Hset as (Hb & Hrest).
  unfold session_open in *. cbn. rewrite Hb, Hargs.
  repeat split; try done; try apply Hrest.
  by rewrite Hd1.
Qed.

(** X11: the first authenticated request of a client that has its
    credentials but no token, with no server error recorded and at least
    one attempt allowed: when the login request is answered with a usable
    [access_token] and the request itself with a body, exactly two
    requests are sent.  The first is the login request with the stored
    credentials and without an [Authorization] header; the second is the
    request itself and carries [Authorization: Bearer] with the token just
    received, whatever expiry came with it.  The body is returned. *)
Theorem first_request_logs_in
    (method endpoint : string) (json_data : option (gmap string Value))
    (c : Client) (w : World) (d : gmap string Value) (t res : Value) :
  let r := _make_authenticated_request API_ENDPOINTS
             method endpoint json_data c w in
  truthy (token c) = false ->
  truthy_str (email c) = true ->
  truthy_str (password c) = true ->
  1 <= _max_retries c ->
  _server_error_detected c = false ->
  network w (sent w) = Response (VDict d) ->
  d !! "access_token" = Some t ->
  truthy t = true ->
  network w (S (sent w)) = Response res ->
  endpoint <> ep_login API_ENDPOINTS ->
  endpoint <> ep_signup API_ENDPOINTS ->
  result_of r = Ok res
  /\ token (client_after r) = t
  /\ req_headers (login_request API_ENDPOINTS c) !! "Authorization" = None
  /\ exists req : Request,
       events_since w (world_after r)
       = [EvRequest (login_request API_ENDPOINTS c); EvRequest req]
       /\ own_request c method endpoint json_data req
       /\ req_headers req !! "Authorization" = Some (HBearer t).
Proof.
  intros r Htok Hemail Hpassword Hmax Hdet Hnet Hacc Htruthy Hnet2 Hl Hs.
  subst r. rewrite make_authenticated_request_run, Htok, Hemail, Hpassword.
  cbn [negb andb].
  destruct (ensure_valid_token_logs_in c w d Htok Hemail Hpassword Hmax
              Hdet Hnet)
    as (c2 & w2 & -> & Ht2 & Hset & Hd2 & Hopen2 & Hc2 & Hn2 & Hs2 & Htr2).
  rewrite Hacc in Ht2. simpl in Ht2.
  unfold _request_with_retries. rewrite request_with_retries_via_run.
  destruct (ensure_session_open c2 w2) as [_ Hsame].
  rewrite (Hsame Hopen2).
  unfold result_of, client_after, world_after. cbn [fst snd].
  destruct Hset as (Hb & Hm & Hto & Hrest).
  rewrite Hm.
  destruct (Z.to_nat (_max_retries c)) as [| rest] eqn:Hn; [lia |].
  assert (Hopen : result_of (cooldown_blocks false c2 w2) = Ok false).
  { by rewrite cooldown_blocks_run, Hd2. }
  rewrite (retry_loop_returns_body _ rest 0 None method endpoint json_data
             false c2 w2 res Hopen); try done;
    [| by rewrite Hn2, Hs2].
  rewrite cooldown_blocks_run, Hd2.
  unfold result_of, client_after, world_after. cbn [fst snd].
  split; [done |]. split; [done |]. split.
  { unfold login_request, request_args, _get_headers. cbn [req_headers].
    by rewrite Htok. }
  eexists. split; [| split].
  - unfold events_since. cbn [trace sent_request]. rewrite Htr2.
    rewrite <- app_assoc. apply drop_app_length.
  - unfold own_request. cbn. by rewrite Hb, Hto.
  - unfold request_args, _get_headers. cbn [req_headers].
    rewrite Ht2, Htruthy. apply lookup_insert_eq.
Qed.

(** ** Signing up *)

Lemma signup_run (email_given role bybit_deposit : string)
    (c : Client) (w : World) :
  signup API_ENDPOINTS email_given role bybit_deposit c w
  = _request_with_retries API_ENDPOINTS "POST" (ep_signup API_ENDPOINTS)
      (Some {[ "email" := VStr email_given; "role" := VStr role;
               "bybit_deposit" := VStr bybit_deposit ]})
      true (set_email (Some email_given) c) w.
Proof. reflexivity. Qed.

(** X12: [signup] stores the e-mail given and never a password, whatever
    the outcome: the password is the one held before the call.  So on a
    client that held none, the token installed by the signup cannot be
    refreshed: as soon as the test finds it missing or expiring,
    [_ensure_valid_token] raises [APIAuthenticationError] without sending
    anything. *)
Theorem signup_stores_no_password
    (email_given role bybit_deposit : string) (c : Client) (w : World) :
  let c1 := client_after
              (signup API_ENDPOINTS email_given role bybit_deposit c w) in
  email c1 = Some email_given
  /\ password c1 = password c
  /\ (truthy_str (password c) = false ->
      forall w2 : World,
        result_of (token_check c1 w2) = Ok true ->
        result_of (token_check c1 (tick w2)) = Ok true ->
        _ensure_valid_token API_ENDPOINTS c1 w2
        = (Raise (APIExn APIAuthenticationError
                    "Token expired, but credentials are not set for refresh. Call login() first."
                    None), c1, tick (tick w2))).
Proof.
  intros c1. subst c1. rewrite signup_run.
  pose proof (request_with_retries_grows API_ENDPOINTS "POST"
                (ep_signup API_ENDPOINTS)
                (Some {[ "email" := VStr email_given; "role" := VStr role;
                         "bybit_deposit" := VStr bybit_deposit ]})
                true (set_email (Some email_given) c) w) as [Hs _].
  cbn zeta in Hs. destruct Hs as (_ & _ & _ & _ & _ & He & Hp).
  cbn in He, Hp. split; [exact He |]. split; [exact Hp |].
  intros Hnone w2 H1 H2.
  rewrite ensure_valid_token_run, H1, ensure_valid_token_locked_run, H2.
  rewrite Hp, Hnone. by rewrite orb_true_r.
Qed.

(** ** The session *)

(** Ensuring the session before a call makes no difference to it. *)
Lemma request_with_retries_session
    (method endpoint : string) (json_data : option (gmap string Value))
    (ia : bool) (c : Client) (w : World) :
  _request_with_retries API_ENDPOINTS method endpoint json_data ia c w
  = _request_with_retries API_ENDPOINTS method endpoint json_data ia
      (client_after (_ensure_session c w)) w.
Proof.
  unfold _request_with_retries. rewrite !request_with_retries_via_run.
  destruct (ensure_session_open c w) as [Ho _].
  destruct (ensure_session_open (client_after (_ensure_session c w)) w)
    as [_ Hsame].
  rewrite (Hsame Ho).
  destruct (ensure_session_settings c w) as ((_ & Hm & _) & _).
  unfold client_after at 1. cbn [fst snd]. by rewrite Hm.
Qed.

(** X13: the session after [_request_with_retries], however the call
    ends, is the one [_ensure_session] leaves at its start: the session
    held when it is open, a new one otherwise, and in both cases an open
    one that no retry, refresh or failure replaces or closes.
    [_make_authenticated_request] likewise keeps an open session (it may
    refuse the call before any session is made). *)
Theorem call_keeps_session
    (method endpoint : string) (json_data : option (gmap string Value))
    (is_auth_request : bool) (c : Client) (w : World) :
  let r := _request_with_retries API_ENDPOINTS
             method endpoint json_data is_auth_request c w in
  let r' := _make_authenticated_request API_ENDPOINTS
              method endpoint json_data c w in
  session (client_after r) = session (client_after (_ensure_session c w))
  /\ session_open (client_after r) = true
  /\ (session_open c = true -> session (client_after r) = session c)
  /\ (session_open c = true -> session (client_after r') = session c).
Proof.
  intros r r'. subst r r'.
  set (R := fun (c : Client) (_ : World) (c' : Client) (_ : World) =>
              session_open c = true -> session c' = session c).
  set (A := fun (_ : Client) (_ _ : string)
                (_ : option (gmap string Value)) => True).
  assert (Hsession : forall c0 w0,
            R c0 w0 (client_after (_ensure_session c0 w0)) w0).
  { intros c0 w0 Ho. destruct (ensure_session_open c0 w0) as [_ Hsame].
    by rewrite (Hsame Ho). }
  assert (Htrans : forall c1 w1 c2 w2 c3 w3,
            R c1 w1 c2 w2 -> R c2 w2 c3 w3 -> R c1 w1 c3 w3).
  { subst R. cbv beta. intros c1 _ c2 _ c3 _ H12 H23 Ho.
    specialize (H12 Ho). rewrite <- H12. apply H23.
    unfold session_open in *. by rewrite H12. }
  assert (H1 : forall c0,
             R c0 w
               (client_after (_request_with_retries API_ENDPOINTS method
                                endpoint json_data is_auth_request c0 w))
               (world_after (_request_with_retries API_ENDPOINTS method
                               endpoint json_data is_auth_request c0 w))).
  { intros c0. apply (request_with_retries_rel API_ENDPOINTS R A);
      try assumption; subst R A; cbv beta; auto. }
  assert (H2 : R c w
                 (client_after (_make_authenticated_request API_ENDPOINTS
                                  method endpoint json_data c w))
                 (world_after (_make_authenticated_request API_ENDPOINTS
                                 method endpoint json_data c w))).
  { apply (make_authenticated_request_rel API_ENDPOINTS R A);
      try assumption; subst R A; cbv beta; auto. }
  destruct (ensure_session_open c w) as [Ho Hsame].
  assert (Hfirst :
            session (client_after (_request_with_retries API_ENDPOINTS
                       method endpoint json_data is_auth_request c w))
            = session (client_after (_ensure_session c w))).
  { rewrite request_with_retries_session. by apply H1. }
  split; [exact Hfirst |]. split.
  { unfold session_open in *. by rewrite Hfirst. }
  split; [by apply H1 | by apply H2].
Qed.


(** [close] written out. *)
Lemma close_run (c : Client) (w : World) :
  close c w
  = (Ok tt, if session_open c then set_session None c else c, w).
Proof.
  unfold session_open, close. run_step.
  by destruct (session c) as [[rfs []] |].
Qed.


(** [async with] written out. *)
Lemma async_with_run {T : Type} (body : M T) (c : Client) (w : World) :
  async_with body c w
  = let rb := body (client_after (_ensure_session c w)) w in
    (result_of rb,
     (if session_open (client_after rb)
      then set_session None (client_after rb)
      else client_after rb),
     world_after rb).
Proof.
  destruct (ensure_session_run c w) as [s Hs].
  unfold async_with, __aenter__, __aexit__, bind, try, ret, raise,
    result_of, client_after, world_after.
  rewrite Hs. cbn [fst snd].
  destruct (body (set_session s c) w) as [[res cb] wb]. cbn [fst snd].
  rewrite close_run. by destruct res.
Qed.

(** X15: [async with client: body], as the examples use the client.  The
    body starts with an open session; its result, exception included, and
    the requests it made are those of the whole statement; and on every
    way out the client is left without an open session.  When the body
    ends with an open session, as every call of the executor does, the
    handle is dropped. *)
Theorem async_with_releases_session {T : Type} (body : M T)
    (c : Client) (w : World) :
  let c0 := client_after (__aenter__ c w) in
  let rb := body c0 w in
  let r := async_with body c w in
  session_open c0 = true
  /\ result_of r = result_of rb
  /\ world_after r = world_after rb
  /\ set_session None (client_after r) = set_session None (client_after rb)
  /\ session_open (client_after r) = false
  /\ (session_open (client_after rb) = true ->
      session (client_after r) = None).
Proof.
  intros c0 rb r. subst c0 rb r. rewrite async_with_run. cbn zeta.
  unfold __aenter__.
  destruct (ensure_session_open c w) as [Ho _].
  set (rb := body (client_after (_ensure_session c w)) w).
  unfold result_of at 1, client_after at 2 5 8, world_after at 1.
  cbn [fst snd].
  destruct (session_open (client_after rb)) eqn:Hcb; by repeat split.
Qed.

End Extras.

(** ** The further properties at sample runs *)

(** X1 at a request sent long after the cooldown and answered with a body:
    the flag is still set. *)
Lemma executor_keeps_server_error_flag_witness :
  _server_error_detected client_in_cooldown = true
  /\ result_of
       (_request_with_retries sample_endpoints "POST" "/orders" None false
          client_in_cooldown (world_at 2000 (fun _ => Response (VStr "ok"))))
     = Ok (VStr "ok")
  /\ _server_error_detected
       (client_after
          (_request_with_retries sample_endpoints "POST" "/orders" None false
             client_in_cooldown
             (world_at 2000 (fun _ => Response (VStr "ok")))))
     = true.
Proof.
  split; [reflexivity |]. split; [vm_compute; reflexivity |].
  exact (proj1 (executor_keeps_server_error_flag sample_endpoints
                  "POST" "/orders" None false client_in_cooldown
                  (world_at 2000 (fun _ => Response (VStr "ok"))) eq_refl)).
Defined.

(** X2 at a request answered with 404. *)
Lemma client_error_not_retried_witness :
  network (world_at 1000 (fun _ => Failure (ClientResponseError 404 "Not Found")))
    0%nat
  = Failure (ClientResponseError 404 "Not Found")
  /\ result_of
       (retry_loop sample_endpoints (ret tt) 3 0 None "POST" "/orders" None
          false client_with_token
          (world_at 1000
             (fun _ => Failure (ClientResponseError 404 "Not Found"))))
     = Raise (APIExn APIClientError
                "Client error at https://api.ns.gifts/orders: 404 Not Found"
                (Some (ClientResponseError 404 "Not Found")))
  /\ sent (world_after
             (retry_loop sample_endpoints (ret tt) 3 0 None "POST" "/orders"
                None false client_with_token
                (world_at 1000
                   (fun _ => Failure (ClientResponseError 404 "Not Found")))))
     = 1%nat.
Proof.
  assert (Hstatus : 400 <= 404 < 500) by lia.
  assert (Hnot : 404 <> 401 \/ false = true) by (left; discriminate).
  pose proof (client_error_not_retried sample_endpoints (ret tt) 2 0 None
                "POST" "/orders" None false client_with_token
                (world_at 1000
                   (fun _ => Failure (ClientResponseError 404 "Not Found")))
                404 "Not Found") as H.
  cbv zeta in H. specialize (H eq_refl eq_refl Hstatus Hnot).
  split; [reflexivity |]. rewrite H.
  split; vm_compute; reflexivity.
Defined.

(** X3 at a client made with [max_retries=0]. *)
Lemma no_attempt_no_request_witness :
  _max_retries (init "https://api.ns.gifts" 0 30 300 300) <= 0
  /\ result_of
       (_request_with_retries sample_endpoints "POST" "/orders" None false
          (init "https://api.ns.gifts" 0 30 300 300)
          (world_at 1000 (fun _ => Response (VStr "ok"))))
     = Raise (APIExn APIError "Request failed after all retries." None)
  /\ trace (world_after
              (_request_with_retries sample_endpoints "POST" "/orders" None
                 false (init "https://api.ns.gifts" 0 30 300 300)
                 (world_at 1000 (fun _ => Response (VStr "ok")))))
     = [].
Proof.
  assert (Hmax : _max_retries (init "https://api.ns.gifts" 0 30 300 300) <= 0)
    by (vm_compute; discriminate).
  destruct (no_attempt_no_request sample_endpoints "POST" "/orders" None false
              (init "https://api.ns.gifts" 0 30 300 300)
              (world_at 1000 (fun _ => Response (VStr "ok"))) Hmax)
    as (Hr & Hw & _).
  split; [exact Hmax |]. split; [exact Hr |]. by rewrite Hw.
Defined.

(** X4 at a login answered with 503: the one request is the login
    request. *)
Lemma requests_own_or_refresh_witness :
  Forall (own_request sample_client "POST" "/auth/login" None)
    (requests_of
       (events_since (world_at 1000 (fun _ => unavailable))
          (world_after
             (_request_with_retries sample_endpoints "POST" "/auth/login"
                None true sample_client
                (world_at 1000 (fun _ => unavailable)))))).
Proof.
  exact (proj2 (proj2 (requests_own_or_refresh sample_endpoints
                         "POST" "/auth/login" None true sample_client
                         (world_at 1000 (fun _ => unavailable))))
           eq_refl).
Defined.

(** X5 at a request answered with 503 by a client with a fresh token. *)
Lemma token_changes_only_by_login_witness :
  token (client_after unavailable_run) = VStr "held"
  /\ token_expiry (client_after unavailable_run) = VInt 100000.
Proof.
  apply (proj1 (token_changes_only_by_login sample_endpoints
                  "POST" "/orders" None false client_with_token
                  (world_at 1000 (fun _ => unavailable)))).
  vm_compute. repeat constructor.
  intros [H | H]; discriminate H.
Defined.

(** X6 at a refresh whose login request times out every time. *)
Lemma request_count_bounded_witness :
  (length (requests_of
             (events_since (world_at 1000 (fun _ => Failure ClientTimeout))
                (world_after
                   (_ensure_valid_token sample_endpoints
                      client_with_credentials
                      (world_at 1000 (fun _ => Failure ClientTimeout))))))
   <= 3)%nat.
Proof.
  exact (proj2 (proj2 (request_count_bounded sample_endpoints
                         "POST" "/orders" None false client_with_credentials
                         (world_at 1000 (fun _ => Failure ClientTimeout))))).
Defined.

(** X7 at a 503 at time 1000: a call at 1100 is refused, a call at 1300 is
    sent. *)
Lemma server_error_then_cooldown_witness :
  result_of
    (_request_with_retries sample_endpoints "POST" "/balance" None false
       (client_after
          (retry_loop sample_endpoints (ret tt) 3 0 None "POST" "/orders"
             None false client_with_token
             (world_at 1000 (fun _ => unavailable))))
       (world_at 1100 (fun _ => Response (VStr "ok"))))
  = Raise (APIExn APIServerError
             "API server error detected. Avoiding requests for 200 more seconds."
             None)
  /\ exists evs : list Event,
       trace (world_after
                (_request_with_retries sample_endpoints "POST" "/balance"
                   None false
                   (client_after
                      (retry_loop sample_endpoints (ret tt) 3 0 None "POST"
                         "/orders" None false client_with_token
                         (world_at 1000 (fun _ => unavailable))))
                   (world_at 1300 (fun _ => Response (VStr "ok")))))
       = [] ++ EvRequest (request_args client_with_token "POST"
                            "https://api.ns.gifts/balance" None) :: evs.
Proof.
  split.
  - destruct (server_error_then_cooldown sample_endpoints (ret tt) 2 0 None
                "POST" "/orders" None false client_with_token
                (world_at 1000 (fun _ => unavailable))
                503 "Service Unavailable" "POST" "/balance" None
                (world_at 1100 (fun _ => Response (VStr "ok")))
                eq_refl eq_refl ltac:(lia) ltac:(vm_compute; discriminate))
      as [Hblocked _].
    destruct (Hblocked eq_refl) as [-> _]. vm_compute. reflexivity.
  - destruct (server_error_then_cooldown sample_endpoints (ret tt) 2 0 None
                "POST" "/orders" None false client_with_token
                (world_at 1000 (fun _ => unavailable))
                503 "Service Unavailable" "POST" "/balance" None
                (world_at 1300 (fun _ => Response (VStr "ok")))
                eq_refl eq_refl ltac:(lia) ltac:(vm_compute; discriminate))
      as [_ Hopen].
    exact (Hopen ltac:(vm_compute; discriminate)).
Defined.

(** X8 at a client in its cooldown. *)
Lemma reset_permits_requests_witness :
  1 <= _max_retries client_in_cooldown
  /\ is_server_error_detected
       (client_after
          (reset_server_error_state client_in_cooldown
             (world_at 1000 (fun _ => unavailable))))
       (world_at 1000 (fun _ => unavailable))
     = (Ok false,
        client_after
          (reset_server_error_state client_in_cooldown
             (world_at 1000 (fun _ => unavailable))),
        world_at 1000 (fun _ => unavailable)).
Proof.
  assert (Hmax : 1 <= _max_retries client_in_cooldown)
    by (vm_compute; discriminate).
  split; [exact Hmax |].
  destruct (reset_permits_requests sample_endpoints client_in_cooldown
              (world_at 1000 (fun _ => unavailable)) Hmax)
    as (_ & _ & _ & _ & _ & _ & _ & Hdet & _).
  apply Hdet.
Defined.

(** X9 at a new client, and at a client that was given a token but no
    credentials when the token is within the buffer of its expiry. *)
Lemma request_refused_without_credentials_witness :
  _make_authenticated_request sample_endpoints "POST" "/orders" None
    sample_client (world_at 1000 (fun _ => Response (VStr "ok")))
  = (Raise (APIExn APIAuthenticationError
              "Authentication required. Call login() or signup() first."
              None),
     sample_client, world_at 1000 (fun _ => Response (VStr "ok")))
  /\ result_of
       (_make_authenticated_request sample_endpoints "POST" "/orders" None
          (set_token_expiry (VInt 1200) (set_token (VStr "held") sample_client))
          (world_at 1000 (fun _ => Response (VStr "ok"))))
     = Raise (APIExn APIAuthenticationError
                "Token expired, but credentials are not set for refresh. Call login() first."
                None).
Proof.
  split.
  - exact (proj1 (request_refused_without_credentials sample_endpoints
                    "POST" "/orders" None sample_client
                    (world_at 1000 (fun _ => Response (VStr "ok")))
                    (or_introl eq_refl))
             eq_refl).
  - by rewrite (proj2 (request_refused_without_credentials sample_endpoints
                         "POST" "/orders" None
                         (set_token_expiry (VInt 1200)
                            (set_token (VStr "held") sample_client))
                         (world_at 1000 (fun _ => Response (VStr "ok")))
                         (or_introl eq_refl))
                  eq_refl eq_refl eq_refl).
Defined.

(** X10 at a client whose token is good for a long time. *)
Lemma fresh_token_single_request_witness :
  result_of
    (_make_authenticated_request sample_endpoints "POST" "/orders" None
       client_with_token (world_at 1000 (fun _ => Response (VStr "ok"))))
  = Ok (VStr "ok")
  /\ events_since (world_at 1000 (fun _ => Response (VStr "ok")))
       (world_after
          (_make_authenticated_request sample_endpoints "POST" "/orders"
             None client_with_token
             (world_at 1000 (fun _ => Response (VStr "ok")))))
     = [EvRequest (request_args client_with_token "POST"
                     "https://api.ns.gifts/orders" None)].
Proof.
  destruct (fresh_token_single_request sample_endpoints "POST" "/orders" None
              client_with_token
              (world_at 1000 (fun _ => Response (VStr "ok"))) (VStr "ok")
              eq_refl eq_refl eq_refl ltac:(vm_compute; discriminate) eq_refl
              ltac:(discriminate) ltac:(discriminate))
    as (Hr & Hev & _).
  split; [exact Hr | exact Hev].
Defined.

(** X11 at a client with credentials whose login is answered with the
    token [fresh]. *)
Lemma first_request_logs_in_witness :
  let w := world_at 1000
             (fun n => match n with
                       | O => Response (VDict token_body)
                       | _ => Response (VStr "ok")
                       end) in
  let r := _make_authenticated_request sample_endpoints "POST" "/orders" None
             client_with_credentials w in
  result_of r = Ok (VStr "ok")
  /\ token (client_after r) = VStr "fresh"
  /\ length (events_since w (world_after r)) = 2%nat.
Proof.
  intros w r.
  destruct (first_request_logs_in sample_endpoints "POST" "/orders" None
              client_with_credentials w token_body (VStr "fresh") (VStr "ok")
              eq_refl eq_refl eq_refl ltac:(vm_compute; discriminate) eq_refl
              eq_refl eq_refl eq_refl eq_refl
              ltac:(discriminate) ltac:(discriminate))
    as (Hr & Ht & _ & req & Hev & _).
  split; [exact Hr |]. split; [exact Ht |].
  subst r. by rewrite Hev.
Defined.

(** X12 at a signup of a new client answered with a token that expires at
    7200: at time 7000 the token cannot be refreshed. *)
Lemma signup_stores_no_password_witness :
  let c1 := client_after
              (signup sample_endpoints "user@example.com" "user" "none"
                 sample_client
                 (world_at 1000 (fun _ => Response (VDict token_body)))) in
  token c1 = VStr "fresh"
  /\ password c1 = None
  /\ result_of
       (_ensure_valid_token sample_endpoints c1
          (world_at 7000 (fun _ => Response (VDict token_body))))
     = Raise (APIExn APIAuthenticationError
                "Token expired, but credentials are not set for refresh. Call login() first."
                None).
Proof.
  intros c1.
  destruct (signup_stores_no_password sample_endpoints "user@example.com"
              "user" "none" sample_client
              (world_at 1000 (fun _ => Response (VDict token_body))))
    as (_ & Hp & Hraise).
  fold c1 in Hp, Hraise.
  split; [vm_compute; reflexivity |]. split; [exact Hp |].
  by rewrite (Hraise eq_refl
                (world_at 7000 (fun _ => Response (VDict token_body)))
                eq_refl eq_refl).
Defined.

(** X13 at a client that holds an open session made without
    [raise_for_status]. *)
Lemma call_keeps_session_witness :
  session
    (client_after
       (_request_with_retries sample_endpoints "POST" "/orders" None false
          (set_session (Some (mkSession false false)) client_with_token)
          (world_at 1000 (fun _ => unavailable))))
  = Some (mkSession false false).
Proof.
  exact (proj1 (proj2 (proj2 (call_keeps_session sample_endpoints
                                "POST" "/orders" None false
                                (set_session (Some (mkSession false false))
                                   client_with_token)
                                (world_at 1000 (fun _ => unavailable)))))
           eq_refl).
Defined.


(** X15 at the first example: a login inside [async with]. *)
Lemma async_with_releases_session_witness :
  let r := async_with (login sample_endpoints "user@example.com" "secret")
             sample_client
             (world_at 1000 (fun _ => Response (VDict token_body))) in
  result_of r = Ok (VDict token_body)
  /\ token (client_after r) = VStr "fresh"
  /\ session (client_after r) = None.
Proof.
  intros r.
  destruct (async_with_releases_session
              (login sample_endpoints "user@example.com" "secret")
              sample_client
              (world_at 1000 (fun _ => Response (VDict token_body))))
    as (_ & _ & _ & _ & _ & Hnone).
  split; [vm_compute; reflexivity |]. split; [vm_compute; reflexivity |].
  apply Hnone. vm_compute. reflexivity.
Defined.
